(** * QuickShareLink: the in-memory store and the chat-room broker

  A shallow embedding of [server/storage.ts] (class [MemStorage]) and of
  the request handlers of [server/routes.ts] (the share read endpoint and
  the WebSocket broker), with the properties of the entry store, the room
  store and the broker stated over it.

  Conventions of the embedding.
  - A JavaScript [Date] is the integer [valueOf()] gives (milliseconds);
    [a < b] on dates is [<] on these integers.
  - A [Map<string, V>] is a [gmap string V]; a [Set<WebSocket>] is a
    [gset WebSocket].  Iteration order of maps and sets is not modelled.
  - Every method of [MemStorage] mutates [this]; here it takes the storage
    and returns its result together with the new storage.  The clock
    ([new Date()]) and the identifier source ([randomUUID()]) are read by
    the methods; here they are arguments.
  - [undefined] and [null] are both [None]. *)

From Stdlib Require Import ZArith Ascii String.
From stdpp Require Import base option strings list gmap pretty.

Local Open Scope Z_scope.

(** ** JavaScript truthiness, as used by [||] and [if (x)] *)

Module Js.

(** [if (s)] on a [string | null | undefined]: the empty string is falsy. *)
Definition truthy_string (o : option string) : bool :=
  match o with
  | Some s => negb (String.eqb s "")
  | None => false
  end.

(** [s || null] on an optional string. *)
Definition string_or_null (o : option string) : option string :=
  if truthy_string o then o else None.

(** [n || null] on an optional number: [0] is falsy. *)
Definition number_or_null (o : option Z) : option Z :=
  match o with
  | Some n => if n =? 0 then None else Some n
  | None => None
  end.

(** [n || d] on an optional number. *)
Definition number_or (o : option Z) (d : Z) : Z :=
  match o with
  | Some n => if n =? 0 then d else n
  | None => d
  end.

(** [b || false] on an optional boolean. *)
Definition bool_or_false (o : option bool) : bool :=
  match o with
  | Some b => b
  | None => false
  end.

(** [{...a, ...b}] on one field: the overriding object wins where it has
    the field. *)
Definition spread {A} (base : A) (over : option A) : A :=
  match over with
  | Some x => x
  | None => base
  end.

End Js.

(** ** The schema ([shared/schema.ts]) *)

Inductive ShareType := text | url | file.

Module Share.
Record t := mk {
  id : string;
  code : string;
  type : ShareType;
  content : string;
  fileName : option string;
  fileSize : option Z;
  password : option string;
  expiresAt : Z;
  oneTimeView : bool;
  viewCount : Z;
  createdAt : Z
}.
End Share.

(** [InsertShare]: [Share] without [id], [createdAt] and [viewCount]; the
  nullable and the defaulted columns are optional. *)
Module InsertShare.
Record t := mk {
  code : string;
  type : ShareType;
  content : string;
  fileName : option string;
  fileSize : option Z;
  password : option string;
  expiresAt : Z;
  oneTimeView : option bool
}.
End InsertShare.

(** [Partial<Share>]: every field may be absent. *)
Module PartialShare.
Record t := mk {
  id : option string;
  code : option string;
  type : option ShareType;
  content : option string;
  fileName : option (option string);
  fileSize : option (option Z);
  password : option (option string);
  expiresAt : option Z;
  oneTimeView : option bool;
  viewCount : option Z;
  createdAt : option Z
}.

(** [{ viewCount: n }] *)
Definition only_viewCount (n : Z) : t :=
  mk None None None None None None None None None (Some n) None.

(** [{ ...share, ...updates }] *)
Definition apply (share : Share.t) (updates : t) : Share.t :=
  {| Share.id := Js.spread (Share.id share) (id updates);
     Share.code := Js.spread (Share.code share) (code updates);
     Share.type := Js.spread (Share.type share) (type updates);
     Share.content := Js.spread (Share.content share) (content updates);
     Share.fileName := Js.spread (Share.fileName share) (fileName updates);
     Share.fileSize := Js.spread (Share.fileSize share) (fileSize updates);
     Share.password := Js.spread (Share.password share) (password updates);
     Share.expiresAt := Js.spread (Share.expiresAt share) (expiresAt updates);
     Share.oneTimeView := Js.spread (Share.oneTimeView share) (oneTimeView updates);
     Share.viewCount := Js.spread (Share.viewCount share) (viewCount updates);
     Share.createdAt := Js.spread (Share.createdAt share) (createdAt updates) |}.
End PartialShare.

Module ChatSession.
Record t := mk {
  id : string;
  shareCode : string;
  activeUsers : Z;
  expiresAt : Z;
  createdAt : Z
}.
End ChatSession.

Module InsertChatSession.
Record t := mk {
  shareCode : string;
  activeUsers : option Z;
  expiresAt : Z
}.
End InsertChatSession.

Module PartialChatSession.
Record t := mk {
  id : option string;
  shareCode : option string;
  activeUsers : option Z;
  expiresAt : option Z;
  createdAt : option Z
}.

(** [{ activeUsers: n }] *)
Definition only_activeUsers (n : Z) : t :=
  mk None None (Some n) None None.

(** [{ ...session, ...updates }] *)
Definition apply (session : ChatSession.t) (updates : t) : ChatSession.t :=
  {| ChatSession.id := Js.spread (ChatSession.id session) (id updates);
     ChatSession.shareCode :=
       Js.spread (ChatSession.shareCode session) (shareCode updates);
     ChatSession.activeUsers :=
       Js.spread (ChatSession.activeUsers session) (activeUsers updates);
     ChatSession.expiresAt :=
       Js.spread (ChatSession.expiresAt session) (expiresAt updates);
     ChatSession.createdAt :=
       Js.spread (ChatSession.createdAt session) (createdAt updates) |}.
End PartialChatSession.

(** [chat_messages.created_at] has a default but is nullable. *)
Module ChatMessage.
Record t := mk {
  id : string;
  shareCode : string;
  message : string;
  userId : string;
  createdAt : option Z
}.
End ChatMessage.

Module InsertChatMessage.
Record t := mk {
  shareCode : string;
  message : string;
  userId : string
}.
End InsertChatMessage.

Module PrivateChatSession.
Record t := mk {
  id : string;
  code : string;
  activeUsers : Z;
  expiresAt : Z;
  createdAt : Z
}.
End PrivateChatSession.

Module InsertPrivateChatSession.
Record t := mk {
  code : string;
  activeUsers : option Z;
  expiresAt : Z
}.
End InsertPrivateChatSession.

Module PartialPrivateChatSession.
Record t := mk {
  id : option string;
  code : option string;
  activeUsers : option Z;
  expiresAt : option Z;
  createdAt : option Z
}.

(** [{ activeUsers: n }] *)
Definition only_activeUsers (n : Z) : t :=
  mk None None (Some n) None None.

(** [{ ...session, ...updates }] *)
Definition apply (session : PrivateChatSession.t) (updates : t)
  : PrivateChatSession.t :=
  {| PrivateChatSession.id :=
       Js.spread (PrivateChatSession.id session) (id updates);
     PrivateChatSession.code :=
       Js.spread (PrivateChatSession.code session) (code updates);
     PrivateChatSession.activeUsers :=
       Js.spread (PrivateChatSession.activeUsers session) (activeUsers updates);
     PrivateChatSession.expiresAt :=
       Js.spread (PrivateChatSession.expiresAt session) (expiresAt updates);
     PrivateChatSession.createdAt :=
       Js.spread (PrivateChatSession.createdAt session) (createdAt updates) |}.
End PartialPrivateChatSession.

Module PrivateChatMessage.
Record t := mk {
  id : string;
  chatCode : string;
  message : string;
  userId : string;
  createdAt : Z
}.
End PrivateChatMessage.

Module InsertPrivateChatMessage.
Record t := mk {
  chatCode : string;
  message : string;
  userId : string
}.
End InsertPrivateChatMessage.

(** ** [class MemStorage] ([server/storage.ts]) *)

Module MemStorage.

Record t := mk {
  shares : gmap string Share.t;
  chatSessions : gmap string ChatSession.t;
  chatMessages : gmap string (list ChatMessage.t);
  privateChatSessions : gmap string PrivateChatSession.t;
  privateChatMessages : gmap string (list PrivateChatMessage.t)
}.

(** The constructor. *)
Definition new : t := mk ∅ ∅ ∅ ∅ ∅.

Definition set_shares (m : gmap string Share.t) (st : t) : t :=
  mk m (chatSessions st) (chatMessages st)
     (privateChatSessions st) (privateChatMessages st).

Definition set_chat (s : gmap string ChatSession.t)
    (m : gmap string (list ChatMessage.t)) (st : t) : t :=
  mk (shares st) s m (privateChatSessions st) (privateChatMessages st).

Definition set_private (s : gmap string PrivateChatSession.t)
    (m : gmap string (list PrivateChatMessage.t)) (st : t) : t :=
  mk (shares st) (chatSessions st) (chatMessages st) s m.

(** *** Share operations *)

Definition createShare (insertShare : InsertShare.t) (id : string) (now : Z)
    (st : t) : Share.t * t :=
  let share :=
    {| Share.id := id;
       Share.code := InsertShare.code insertShare;
       Share.type := InsertShare.type insertShare;
       Share.content := InsertShare.content insertShare;
       Share.fileName := Js.string_or_null (InsertShare.fileName insertShare);
       Share.fileSize := Js.number_or_null (InsertShare.fileSize insertShare);
       Share.password := Js.string_or_null (InsertShare.password insertShare);
       Share.expiresAt := InsertShare.expiresAt insertShare;
       Share.oneTimeView := Js.bool_or_false (InsertShare.oneTimeView insertShare);
       Share.viewCount := 0;
       Share.createdAt := now |} in
  (share, set_shares (<[Share.code share := share]> (shares st)) st).

Definition getShareByCode (code : string) (now : Z) (st : t)
    : option Share.t * t :=
  match shares st !! code with
  | None => (None, st)
  | Some share =>
      if Share.expiresAt share <? now
      then (None, set_shares (delete code (shares st)) st)
      else (Some share, st)
  end.

Definition updateShare (code : string) (updates : PartialShare.t) (st : t)
    : option Share.t * t :=
  match shares st !! code with
  | None => (None, st)
  | Some share =>
      let updatedShare := PartialShare.apply share updates in
      (Some updatedShare, set_shares (<[code := updatedShare]> (shares st)) st)
  end.

(** [Map.delete] answers whether the key was present. *)
Definition deleteShare (code : string) (st : t) : bool * t :=
  (bool_decide (is_Some (shares st !! code)),
   set_shares (delete code (shares st)) st).

(** *** Chat operations *)

Definition createChatSession (insertSession : InsertChatSession.t)
    (id : string) (now : Z) (st : t) : ChatSession.t * t :=
  let session :=
    {| ChatSession.id := id;
       ChatSession.shareCode := InsertChatSession.shareCode insertSession;
       ChatSession.activeUsers :=
         Js.number_or (InsertChatSession.activeUsers insertSession) 0;
       ChatSession.expiresAt := InsertChatSession.expiresAt insertSession;
       ChatSession.createdAt := now |} in
  (session,
   set_chat (<[ChatSession.shareCode session := session]> (chatSessions st))
            (chatMessages st) st).

Definition getChatSession (shareCode : string) (now : Z) (st : t)
    : option ChatSession.t * t :=
  match chatSessions st !! shareCode with
  | None => (None, st)
  | Some session =>
      if ChatSession.expiresAt session <? now
      then (None, set_chat (delete shareCode (chatSessions st))
                           (delete shareCode (chatMessages st)) st)
      else (Some session, st)
  end.

Definition updateChatSession (shareCode : string)
    (updates : PartialChatSession.t) (st : t) : option ChatSession.t * t :=
  match chatSessions st !! shareCode with
  | None => (None, st)
  | Some session =>
      let updatedSession := PartialChatSession.apply session updates in
      (Some updatedSession,
       set_chat (<[shareCode := updatedSession]> (chatSessions st))
                (chatMessages st) st)
  end.

Definition deleteChatSession (shareCode : string) (st : t) : bool * t :=
  (bool_decide (is_Some (chatSessions st !! shareCode)),
   set_chat (delete shareCode (chatSessions st))
            (delete shareCode (chatMessages st)) st).

(** [this.chatMessages.get(code) || []]: an array, even an empty one, is
    truthy, so the default is taken only for an absent key. *)
Definition createChatMessage (insertMessage : InsertChatMessage.t)
    (id : string) (now : Z) (st : t) : ChatMessage.t * t :=
  let message :=
    {| ChatMessage.id := id;
       ChatMessage.shareCode := InsertChatMessage.shareCode insertMessage;
       ChatMessage.message := InsertChatMessage.message insertMessage;
       ChatMessage.userId := InsertChatMessage.userId insertMessage;
       ChatMessage.createdAt := Some now |} in
  let messages :=
    default [] (chatMessages st !! InsertChatMessage.shareCode insertMessage) in
  (message,
   set_chat (chatSessions st)
            (<[InsertChatMessage.shareCode insertMessage := messages ++ [message]]>
               (chatMessages st)) st).

Definition getChatMessages (shareCode : string) (st : t)
    : list ChatMessage.t :=
  default [] (chatMessages st !! shareCode).

(** *** Private chat operations *)

Definition createPrivateChatSession (insertSession : InsertPrivateChatSession.t)
    (id : string) (now : Z) (st : t) : PrivateChatSession.t * t :=
  let session :=
    {| PrivateChatSession.id := id;
       PrivateChatSession.code := InsertPrivateChatSession.code insertSession;
       PrivateChatSession.activeUsers :=
         Js.number_or (InsertPrivateChatSession.activeUsers insertSession) 0;
       PrivateChatSession.expiresAt :=
         InsertPrivateChatSession.expiresAt insertSession;
       PrivateChatSession.createdAt := now |} in
  (session,
   set_private
     (<[PrivateChatSession.code session := session]> (privateChatSessions st))
     (privateChatMessages st) st).

Definition getPrivateChatSession (chatCode : string) (now : Z) (st : t)
    : option PrivateChatSession.t * t :=
  match privateChatSessions st !! chatCode with
  | None => (None, st)
  | Some session =>
      if PrivateChatSession.expiresAt session <? now
      then (None, set_private (delete chatCode (privateChatSessions st))
                              (delete chatCode (privateChatMessages st)) st)
      else (Some session, st)
  end.

Definition updatePrivateChatSession (chatCode : string)
    (updates : PartialPrivateChatSession.t) (st : t)
    : option PrivateChatSession.t * t :=
  match privateChatSessions st !! chatCode with
  | None => (None, st)
  | Some session =>
      let updatedSession := PartialPrivateChatSession.apply session updates in
      (Some updatedSession,
       set_private (<[chatCode := updatedSession]> (privateChatSessions st))
                   (privateChatMessages st) st)
  end.

Definition deletePrivateChatSession (chatCode : string) (st : t) : bool * t :=
  (bool_decide (is_Some (privateChatSessions st !! chatCode)),
   set_private (delete chatCode (privateChatSessions st))
               (delete chatCode (privateChatMessages st)) st).

Definition createPrivateChatMessage (insertMessage : InsertPrivateChatMessage.t)
    (id : string) (now : Z) (st : t) : PrivateChatMessage.t * t :=
  let message :=
    {| PrivateChatMessage.id := id;
       PrivateChatMessage.chatCode := InsertPrivateChatMessage.chatCode insertMessage;
       PrivateChatMessage.message := InsertPrivateChatMessage.message insertMessage;
       PrivateChatMessage.userId := InsertPrivateChatMessage.userId insertMessage;
       PrivateChatMessage.createdAt := now |} in
  let messages :=
    default []
      (privateChatMessages st !! InsertPrivateChatMessage.chatCode insertMessage) in
  (message,
   set_private (privateChatSessions st)
     (<[InsertPrivateChatMessage.chatCode insertMessage := messages ++ [message]]>
        (privateChatMessages st)) st).

Definition getPrivateChatMessages (chatCode : string) (st : t)
    : list PrivateChatMessage.t :=
  default [] (privateChatMessages st !! chatCode).

(** *** [cleanupExpired]

    Each of the three loops walks a snapshot of the entries
    ([Array.from(map.entries())]) and deletes from the live map. *)

Definition sweepShare (now : Z) (m : gmap string Share.t)
    (entry : string * Share.t) : gmap string Share.t :=
  if Share.expiresAt entry.2 <? now then delete entry.1 m else m.

Definition sweepChat (now : Z)
    (acc : gmap string ChatSession.t * gmap string (list ChatMessage.t))
    (entry : string * ChatSession.t)
    : gmap string ChatSession.t * gmap string (list ChatMessage.t) :=
  if ChatSession.expiresAt entry.2 <? now
  then (delete entry.1 acc.1, delete entry.1 acc.2)
  else acc.

Definition sweepPrivate (now : Z)
    (acc : gmap string PrivateChatSession.t
           * gmap string (list PrivateChatMessage.t))
    (entry : string * PrivateChatSession.t)
    : gmap string PrivateChatSession.t
      * gmap string (list PrivateChatMessage.t) :=
  if PrivateChatSession.expiresAt entry.2 <? now
  then (delete entry.1 acc.1, delete entry.1 acc.2)
  else acc.

Definition cleanupExpired (now : Z) (st : t) : t :=
  let shares' :=
    foldl (sweepShare now) (shares st) (map_to_list (shares st)) in
  let chat' :=
    foldl (sweepChat now) (chatSessions st, chatMessages st)
          (map_to_list (chatSessions st)) in
  let private' :=
    foldl (sweepPrivate now) (privateChatSessions st, privateChatMessages st)
          (map_to_list (privateChatSessions st)) in
  mk shares' chat'.1 chat'.2 private'.1 private'.2.

End MemStorage.

(** ** The request handlers ([server/routes.ts]) *)

Module Routes.

Record UrlMetadata := mkUrlMetadata {
  title : string;
  description : string;
  image : string;
  domain : string
}.

(** What the handlers take from outside this repository:
    [String.prototype.toUpperCase], [bcrypt.compare(password, hash)], and
    the network fetch behind [fetchUrlMetadata] ([None] when it throws). *)
Class Externals := {
  toUpperCase : string -> string;
  bcrypt_compare : string -> string -> bool;
  fetchUrlMetadata : string -> option UrlMetadata
}.

(** *** [GET /api/shares/:code] *)

Record ResponseData := mkResponseData {
  type : ShareType;
  content : string;
  fileName : option string;
  fileSize : option Z;
  expiresAt : Z;
  viewCount : Z;
  fileData : option string;
  metadata : option UrlMetadata
}.

Inductive GetShareResponse :=
| NotFound                        (* 404, "Share not found or expired" *)
| RequiresPassword                (* 200, { requiresPassword: true } *)
| InvalidPassword                 (* 401, "Invalid password" *)
| ShareBody (data : ResponseData) (* 200, the entry *).

(** The block under "Check password if required": [Some r] when the
    handler returns [r] there, [None] when it falls through. *)
Definition checkPassword `{Externals} (share : Share.t)
    (password : option string) : option GetShareResponse :=
  if Js.truthy_string (Share.password share) then
    if negb (Js.truthy_string password) then Some RequiresPassword
    else
      let isValidPassword :=
        bcrypt_compare (default "" password)
                       (default "" (Share.password share)) in
      if negb isValidPassword then Some InvalidPassword else None
  else None.

Definition getShare `{Externals} (code : string) (password : option string)
    (now : Z) (st : MemStorage.t) : GetShareResponse * MemStorage.t :=
  let '(found, st1) := MemStorage.getShareByCode (toUpperCase code) now st in
  match found with
  | None => (NotFound, st1)
  | Some share =>
      match checkPassword share password with
      | Some early => (early, st1)
      | None =>
          let '(updatedShare, st2) :=
            MemStorage.updateShare (toUpperCase code)
              (PartialShare.only_viewCount
                 (Js.number_or (Some (Share.viewCount share)) 0 + 1)) st1 in
          let st3 :=
            if Share.oneTimeView share
            then (MemStorage.deleteShare (toUpperCase code) st2).2
            else st2 in
          (ShareBody
             {| type := Share.type share;
                content := Share.content share;
                fileName := Share.fileName share;
                fileSize := Share.fileSize share;
                expiresAt := Share.expiresAt share;
                viewCount :=
                  Js.number_or (Share.viewCount <$> updatedShare)
                    (Js.number_or (Some (Share.viewCount share)) 0 + 1);
                fileData :=
                  match Share.type share with
                  | file => Some (Share.content share)
                  | _ => None
                  end;
                metadata :=
                  match Share.type share with
                  | url => fetchUrlMetadata (Share.content share)
                  | _ => None
                  end |},
           st3)
      end
  end.

(** *** [POST /api/private-chat]

    [code] is what [generateCode()] returned; the room lives two hours. *)
Definition createPrivateChat (code : string) (id : string) (now : Z)
    (st : MemStorage.t) : PrivateChatSession.t * MemStorage.t :=
  MemStorage.createPrivateChatSession
    {| InsertPrivateChatSession.code := code;
       InsertPrivateChatSession.expiresAt := now + 2 * 60 * 60 * 1000;
       InsertPrivateChatSession.activeUsers := Some 0 |} id now st.

(** *** The WebSocket broker *)

(** A connection is known by its identity only. *)
Abbreviation WebSocket := positive (only parsing).

Record ClientConnection := mkClientConnection {
  ws : WebSocket;
  shareCode : string;
  userId : string
}.

(** Inbound envelopes, by their [type] tag; [Other] is any other tag.  The
    fields are present and are strings: the [catch] of the handler (text that
    is not JSON, a missing [shareCode]) is not reached. *)
Inductive ClientMessage :=
| Join (shareCode userId : string)
| JoinPrivateChat (chatCode userId : string)
| Message (content : string)
| PrivateMessage (content : string)
| Other.

Record MessageView := mkMessageView {
  msg_id : string;
  msg_message : string;
  msg_userId : string;
  msg_createdAt : option Z
}.

(** Outbound envelopes.  The count sent on a join carries [expiresAt], the
    one sent on a disconnect does not. *)
Inductive ServerMessage :=
| Error (message : string)
| UserCount (count : Z) (expiresAt : option Z)
| ChatHistory (messages : list MessageView)
| NewMessage (message : MessageView).

Definition viewChatMessage (msg : ChatMessage.t) : MessageView :=
  {| msg_id := ChatMessage.id msg;
     msg_message := ChatMessage.message msg;
     msg_userId := ChatMessage.userId msg;
     msg_createdAt := ChatMessage.createdAt msg |}.

Definition viewPrivateChatMessage (msg : PrivateChatMessage.t) : MessageView :=
  {| msg_id := PrivateChatMessage.id msg;
     msg_message := PrivateChatMessage.message msg;
     msg_userId := PrivateChatMessage.userId msg;
     msg_createdAt := Some (PrivateChatMessage.createdAt msg) |}.

(** The module-level [storage] and the two maps of [registerRoutes]. *)
Record Server := mkServer {
  storage : MemStorage.t;
  clients : gmap WebSocket ClientConnection;
  shareRooms : gmap string (gset WebSocket)
}.

Definition init : Server := mkServer MemStorage.new ∅ ∅.

Definition Sent : Type := WebSocket * ServerMessage.

(** [roomClients.forEach(c => { if (c.readyState === OPEN) c.send(m) })] *)
Definition broadcast (isOpen : WebSocket -> bool) (roomClients : gset WebSocket)
    (m : ServerMessage) : list Sent :=
  (fun c => (c, m)) <$> filter (fun c => isOpen c = true) (elements roomClients).

(** [if (!shareRooms.has(code)) shareRooms.set(code, new Set());
     shareRooms.get(code)!.add(ws)] *)
Definition addToRoom (code : string) (w : WebSocket)
    (rooms : gmap string (gset WebSocket)) : gmap string (gset WebSocket) :=
  let rooms1 :=
    match rooms !! code with
    | None => <[code := ∅]> rooms
    | Some _ => rooms
    end in
  alter (fun roomClients => roomClients ∪ {[w]}) code rooms1.

Definition roomSize (code : string) (rooms : gmap string (gset WebSocket)) : Z :=
  Z.of_nat (size (default ∅ (rooms !! code))).

(** [message.type === 'join'].  The count that is broadcast carries
    [session!.expiresAt]; the session is there on both branches, and the
    message holds it as an option. *)
Definition onJoin `{Externals} (w : WebSocket) (shareCode userId : string)
    (id : string) (now : Z) (isOpen : WebSocket -> bool) (sv : Server)
    : Server * list Sent :=
  let code := toUpperCase shareCode in
  let '(share, st1) := MemStorage.getShareByCode code now (storage sv) in
  match share with
  | None =>
      (mkServer st1 (clients sv) (shareRooms sv),
       [(w, Error "Share not found")])
  | Some _ =>
      let clients' := <[w := mkClientConnection w code userId]> (clients sv) in
      let rooms' := addToRoom code w (shareRooms sv) in
      let '(found, st2) := MemStorage.getChatSession code now st1 in
      let '(session, st3) :=
        match found with
        | None =>
            let '(created, st) :=
              MemStorage.createChatSession
                {| InsertChatSession.shareCode := code;
                   InsertChatSession.activeUsers := Some 1;
                   InsertChatSession.expiresAt := now + 30 * 60 * 1000 |}
                id now st2 in
            (Some created, st)
        | Some _ =>
            MemStorage.updateChatSession code
              (PartialChatSession.only_activeUsers (roomSize code rooms')) st2
        end in
      let counts :=
        match rooms' !! code with
        | Some roomClients =>
            broadcast isOpen roomClients
              (UserCount (Z.of_nat (size roomClients))
                         (ChatSession.expiresAt <$> session))
        | None => []
        end in
      let messages := MemStorage.getChatMessages code st3 in
      (mkServer st3 clients' rooms',
       counts ++ [(w, ChatHistory (viewChatMessage <$> messages))])
  end.

(** [message.type === 'joinPrivateChat'] *)
Definition onJoinPrivateChat `{Externals} (w : WebSocket)
    (chatCode userId : string) (now : Z) (isOpen : WebSocket -> bool)
    (sv : Server) : Server * list Sent :=
  let code := toUpperCase chatCode in
  let '(found, st1) := MemStorage.getPrivateChatSession code now (storage sv) in
  match found with
  | None =>
      (mkServer st1 (clients sv) (shareRooms sv),
       [(w, Error "Private chat room not found or expired")])
  | Some session =>
      let clients' := <[w := mkClientConnection w code userId]> (clients sv) in
      let rooms' := addToRoom code w (shareRooms sv) in
      let st2 :=
        (MemStorage.updatePrivateChatSession code
           (PartialPrivateChatSession.only_activeUsers (roomSize code rooms'))
           st1).2 in
      let counts :=
        match rooms' !! code with
        | Some roomClients =>
            broadcast isOpen roomClients
              (UserCount (Z.of_nat (size roomClients))
                         (Some (PrivateChatSession.expiresAt session)))
        | None => []
        end in
      let messages := MemStorage.getPrivateChatMessages code st2 in
      (mkServer st2 clients' rooms',
       counts ++ [(w, ChatHistory (viewPrivateChatMessage <$> messages))])
  end.

(** [message.type === 'message'] *)
Definition onChatMessage (w : WebSocket) (content : string) (id : string)
    (now : Z) (isOpen : WebSocket -> bool) (sv : Server)
    : Server * list Sent :=
  match clients sv !! w with
  | None => (sv, [])
  | Some client =>
      let '(chatMessage, st1) :=
        MemStorage.createChatMessage
          {| InsertChatMessage.shareCode := shareCode client;
             InsertChatMessage.message := content;
             InsertChatMessage.userId := userId client |}
          id now (storage sv) in
      (mkServer st1 (clients sv) (shareRooms sv),
       match shareRooms sv !! shareCode client with
       | Some roomClients =>
           broadcast isOpen roomClients (NewMessage (viewChatMessage chatMessage))
       | None => []
       end)
  end.

(** [message.type === 'privateMessage'] *)
Definition onPrivateMessage (w : WebSocket) (content : string) (id : string)
    (now : Z) (isOpen : WebSocket -> bool) (sv : Server)
    : Server * list Sent :=
  match clients sv !! w with
  | None => (sv, [])
  | Some client =>
      let '(chatMessage, st1) :=
        MemStorage.createPrivateChatMessage
          {| InsertPrivateChatMessage.chatCode := shareCode client;
             InsertPrivateChatMessage.message := content;
             InsertPrivateChatMessage.userId := userId client |}
          id now (storage sv) in
      (mkServer st1 (clients sv) (shareRooms sv),
       match shareRooms sv !! shareCode client with
       | Some roomClients =>
           broadcast isOpen roomClients
             (NewMessage (viewPrivateChatMessage chatMessage))
       | None => []
       end)
  end.

(** [ws.on('message', ...)].  [id] and [now] are what [randomUUID()] and
    the clock give while the handler runs. *)
Definition onMessage `{Externals} (w : WebSocket) (m : ClientMessage)
    (id : string) (now : Z) (isOpen : WebSocket -> bool) (sv : Server)
    : Server * list Sent :=
  match m with
  | Join shareCode userId => onJoin w shareCode userId id now isOpen sv
  | JoinPrivateChat chatCode userId =>
      onJoinPrivateChat w chatCode userId now isOpen sv
  | Message content => onChatMessage w content id now isOpen sv
  | PrivateMessage content => onPrivateMessage w content id now isOpen sv
  | Other => (sv, [])
  end.

(** [ws.on('close', ...)] *)
Definition onClose (w : WebSocket) (isOpen : WebSocket -> bool) (sv : Server)
    : Server * list Sent :=
  match clients sv !! w with
  | None => (sv, [])
  | Some client =>
      let '(st', rooms', sent) :=
        match shareRooms sv !! shareCode client with
        | Some roomClients =>
            let roomClients' := roomClients ∖ {[w]} in
            if bool_decide (size roomClients' = 0%nat) then
              ((MemStorage.deleteChatSession (shareCode client) (storage sv)).2,
               delete (shareCode client) (shareRooms sv),
               [])
            else
              ((MemStorage.updateChatSession (shareCode client)
                  (PartialChatSession.only_activeUsers
                     (Z.of_nat (size roomClients')))
                  (storage sv)).2,
               <[shareCode client := roomClients']> (shareRooms sv),
               broadcast isOpen roomClients'
                 (UserCount (Z.of_nat (size roomClients')) None))
        | None => (storage sv, shareRooms sv, [])
        end in
      (mkServer st' (delete w (clients sv)) rooms', sent)
  end.

(** *** The server as a transition system

    The handlers are [async]; each is taken to run to its end before the
    next event is handled, and to read the clock once. *)

Record World := mkWorld {
  server : Server;
  open : gset WebSocket   (* the connections whose [readyState] is [OPEN] *)
}.

Inductive Event :=
| Connect (w : WebSocket)
| Receive (w : WebSocket) (m : ClientMessage) (id : string) (now : Z)
| Disconnect (w : WebSocket)
| PostPrivateChat (code : string) (id : string) (now : Z).

Definition isOpenIn (o : gset WebSocket) (w : WebSocket) : bool :=
  bool_decide (w ∈ o).

Definition step `{Externals} (wd : World) (e : Event) : World * list Sent :=
  match e with
  | Connect w => (mkWorld (server wd) (open wd ∪ {[w]}), [])
  | Receive w m id now =>
      if isOpenIn (open wd) w then
        let '(sv, sent) := onMessage w m id now (isOpenIn (open wd)) (server wd) in
        (mkWorld sv (open wd), sent)
      else (wd, [])
  | Disconnect w =>
      if isOpenIn (open wd) w then
        let open' := open wd ∖ {[w]} in
        let '(sv, sent) := onClose w (isOpenIn open') (server wd) in
        (mkWorld sv open', sent)
      else (wd, [])
  | PostPrivateChat code id now =>
      let sv := server wd in
      (mkWorld
         (mkServer (createPrivateChat code id now (storage sv)).2
                   (clients sv) (shareRooms sv))
         (open wd),
       [])
  end.

Definition run `{Externals} (wd : World) (es : list Event) : World :=
  foldl (fun acc e => (step acc e).1) wd es.

Definition start : World := mkWorld init ∅.

End Routes.

(** ** Concrete data used by the examples *)

Module Samples.

(** [toUpperCase] on the ASCII letters, which is all a code holds. *)
Definition upperAscii (c : ascii) : ascii :=
  let n := nat_of_ascii c in
  if ((97 <=? n) && (n <=? 122))%nat then ascii_of_nat (n - 32) else c.

Fixpoint upper (s : string) : string :=
  match s with
  | EmptyString => EmptyString
  | String c rest => String (upperAscii c) (upper rest)
  end.

(** A stand-in for bcrypt: the hash of [p] is [p] behind a fixed prefix. *)
Definition toyHash (p : string) : string := "$2b$10$" +:+ p.

Definition externals : Routes.Externals :=
  {| Routes.toUpperCase := upper;
     Routes.bcrypt_compare := fun p h => String.eqb (toyHash p) h;
     Routes.fetchUrlMetadata := fun _ => None |}.

(** [{kind: text, payload: "hello", expiresIn: "1m", oneTimeView: true}],
    published at time [0] under the code [AB12CD34]. *)
Definition helloInsert : InsertShare.t :=
  {| InsertShare.code := "AB12CD34";
     InsertShare.type := text;
     InsertShare.content := "hello";
     InsertShare.fileName := None;
     InsertShare.fileSize := None;
     InsertShare.password := None;
     InsertShare.expiresAt := 60000;
     InsertShare.oneTimeView := Some true |}.

Definition helloStore : MemStorage.t :=
  (MemStorage.createShare helloInsert "id-1" 0 MemStorage.new).2.

(** A second publication that happens to draw the same code. *)
Definition clashInsert : InsertShare.t :=
  {| InsertShare.code := "AB12CD34";
     InsertShare.type := text;
     InsertShare.content := "other";
     InsertShare.fileName := None;
     InsertShare.fileSize := None;
     InsertShare.password := None;
     InsertShare.expiresAt := 90000;
     InsertShare.oneTimeView := None |}.

(** A one-time-view entry behind the password [secret]. *)
Definition lockedInsert : InsertShare.t :=
  {| InsertShare.code := "0F0F0F0F";
     InsertShare.type := text;
     InsertShare.content := "locked";
     InsertShare.fileName := None;
     InsertShare.fileSize := None;
     InsertShare.password := Some (toyHash "secret");
     InsertShare.expiresAt := 60000;
     InsertShare.oneTimeView := Some true |}.

Definition lockedStore : MemStorage.t :=
  (MemStorage.createShare lockedInsert "id-2" 0 MemStorage.new).2.

Definition hi (room user message : string) : InsertChatMessage.t :=
  {| InsertChatMessage.shareCode := room;
     InsertChatMessage.message := message;
     InsertChatMessage.userId := user |}.

(** A content room opened at time [0] with one member. *)
Definition roomStore : MemStorage.t :=
  (MemStorage.createChatSession
     {| InsertChatSession.shareCode := "AB12CD34";
        InsertChatSession.activeUsers := Some 1;
        InsertChatSession.expiresAt := 1800000 |} "id-3" 0 helloStore).2.

(** The scenario of the standalone room: the room [C0FFEE00] is created at
    time [0]; [A] (connection 1) and [B] (connection 2) join; [A] writes;
    [A] leaves; [B] leaves. *)
Definition roomCreatedAndJoined : list Routes.Event :=
  [Routes.PostPrivateChat "C0FFEE00" "s-1" 0;
   Routes.Connect 1;
   Routes.Receive 1 (Routes.JoinPrivateChat "c0ffee00" "A") "u-1" 10;
   Routes.Connect 2;
   Routes.Receive 2 (Routes.JoinPrivateChat "c0ffee00" "B") "u-2" 20;
   Routes.Receive 1 (Routes.PrivateMessage "hi") "m-1" 30].

Definition thenALeaves : list Routes.Event :=
  roomCreatedAndJoined ++ [Routes.Disconnect 1].

Definition thenBLeaves : list Routes.Event :=
  thenALeaves ++ [Routes.Disconnect 2].

(** The same with a content room on the entry ["hello"]. *)
Definition contentRoomJoined : list Routes.Event :=
  [Routes.Connect 1;
   Routes.Receive 1 (Routes.Join "ab12cd34" "A") "s-1" 10;
   Routes.Connect 2;
   Routes.Receive 2 (Routes.Join "ab12cd34" "B") "s-2" 20;
   Routes.Receive 1 (Routes.Message "hi") "m-1" 30].

Definition helloWorld : Routes.World :=
  Routes.mkWorld (Routes.mkServer helloStore ∅ ∅) ∅.

(** An entry published for a day, and a content room on it that [A] joins
    at time [0] and [B] joins 31 minutes later, after the session's 30
    minutes have run out. *)
Definition dayInsert : InsertShare.t :=
  {| InsertShare.code := "DA1DA1DA";
     InsertShare.type := text;
     InsertShare.content := "a day";
     InsertShare.fileName := None;
     InsertShare.fileSize := None;
     InsertShare.password := None;
     InsertShare.expiresAt := 86400000;
     InsertShare.oneTimeView := None |}.

Definition dayWorld : Routes.World :=
  Routes.mkWorld
    (Routes.mkServer (MemStorage.createShare dayInsert "id-4" 0 MemStorage.new).2
                     ∅ ∅)
    ∅.

Definition joinAfterSessionExpiry : list Routes.Event :=
  [Routes.Connect 1;
   Routes.Receive 1 (Routes.Join "da1da1da" "A") "s-1" 0;
   Routes.Connect 2;
   Routes.Receive 2 (Routes.Join "da1da1da" "B") "s-2" 1860000].

End Samples.

(** ** Runs of the message log *)

Module Log.

(** One call of [createChatMessage]: the message, and the identifier and the
    time it is given. *)
Definition Arrival : Type := InsertChatMessage.t * string * Z.

Definition room (a : Arrival) : string := InsertChatMessage.shareCode a.1.1.

(** The message [createChatMessage] builds for an arrival. *)
Definition stamp (a : Arrival) : ChatMessage.t :=
  {| ChatMessage.id := a.1.2;
     ChatMessage.shareCode := InsertChatMessage.shareCode a.1.1;
     ChatMessage.message := InsertChatMessage.message a.1.1;
     ChatMessage.userId := InsertChatMessage.userId a.1.1;
     ChatMessage.createdAt := Some a.2 |}.

(** The arrivals handed to [createChatMessage] one after the other. *)
Definition appendAll (arrivals : list Arrival) (st : MemStorage.t) : MemStorage.t :=
  foldl (fun acc a => (MemStorage.createChatMessage a.1.1 a.1.2 a.2 acc).2)
        st arrivals.

(** The arrivals addressed to one room, in their order. *)
Definition sentTo (code : string) (arrivals : list Arrival) : list Arrival :=
  filter (fun a => room a = code) arrivals.

End Log.

(** ** The shape shared by the two session loops of [cleanupExpired] *)

Module Sweep.

(** One turn of a loop that, for an expired entry of the snapshot, deletes
    its key from two maps: [sweepChat] and [sweepPrivate] are instances. *)
Definition sweep2 {A B : Type} (expired : A -> bool)
    (acc : gmap string A * gmap string B) (entry : string * A)
    : gmap string A * gmap string B :=
  if expired entry.2 then (delete entry.1 acc.1, delete entry.1 acc.2) else acc.

End Sweep.

(** ** The other functions and endpoints of [server/routes.ts] *)

Module Endpoints.
Import Routes.

(** [getExpirationDate(duration)], with [now] the clock it reads. *)
Definition getExpirationDate (duration : string) (now : Z) : Z :=
  if String.eqb duration "1m" then now + 1 * 60 * 1000
  else if String.eqb duration "10m" then now + 10 * 60 * 1000
  else if String.eqb duration "1h" then now + 60 * 60 * 1000
  else if String.eqb duration "1d" then now + 24 * 60 * 60 * 1000
  else now + 10 * 60 * 1000.

(** [Buffer.toString('hex')]: two lower-case digits a byte. *)
Definition hexDigit (n : N) : ascii :=
  match n with
  | 0%N => "0" | 1%N => "1" | 2%N => "2" | 3%N => "3"
  | 4%N => "4" | 5%N => "5" | 6%N => "6" | 7%N => "7"
  | 8%N => "8" | 9%N => "9" | 10%N => "a" | 11%N => "b"
  | 12%N => "c" | 13%N => "d" | 14%N => "e" | _ => "f"
  end%char.

Fixpoint hex (bytes : list Byte.byte) : string :=
  match bytes with
  | [] => EmptyString
  | b :: rest =>
      String (hexDigit (Byte.to_N b / 16))
        (String (hexDigit (Byte.to_N b mod 16)) (hex rest))
  end.

(** The characters a code is made of. *)
Definition upperHexDigits : list ascii :=
  list_ascii_of_string "0123456789ABCDEF".

(** [generateCode()], with [bytes] what [randomBytes(4)] returned. *)
Definition generateCode `{Externals} (bytes : list Byte.byte) : string :=
  toUpperCase (hex bytes).

(** [POST /api/shares/:code/unlock].  The body carries a [password]
    string. *)
Inductive UnlockResponse :=
| UnlockNotFound      (* 404, "Share not found or expired" *)
| UnlockNotProtected  (* 400, "Share is not password protected" *)
| UnlockInvalid       (* 401, "Invalid password" *)
| UnlockSuccess       (* 200, { success: true } *).

Definition unlockShare `{Externals} (code : string) (password : string)
    (now : Z) (st : MemStorage.t) : UnlockResponse * MemStorage.t :=
  let '(found, st1) := MemStorage.getShareByCode (toUpperCase code) now st in
  match found with
  | None => (UnlockNotFound, st1)
  | Some share =>
      if negb (Js.truthy_string (Share.password share)) then
        (UnlockNotProtected, st1)
      else
        let isValidPassword :=
          bcrypt_compare password (default "" (Share.password share)) in
        if negb isValidPassword then (UnlockInvalid, st1)
        else (UnlockSuccess, st1)
  end.

(** [GET /api/private-chat/:code]: [None] is the 404. *)
Record PrivateChatInfo := mkPrivateChatInfo {
  info_code : string;
  info_expiresAt : Z;
  info_activeUsers : Z
}.

Definition getPrivateChat `{Externals} (code : string) (now : Z)
    (st : MemStorage.t) : option PrivateChatInfo * MemStorage.t :=
  let '(found, st1) :=
    MemStorage.getPrivateChatSession (toUpperCase code) now st in
  match found with
  | None => (None, st1)
  | Some session =>
      (Some {| info_code := PrivateChatSession.code session;
               info_expiresAt := PrivateChatSession.expiresAt session;
               info_activeUsers := PrivateChatSession.activeUsers session |},
       st1)
  end.

End Endpoints.

(** ** What holds of the broker's two maps *)

Module Invariants.
Import Routes.

(** Every registered connection is recorded under its own identity and is a
    member of the set of the room it is registered for. *)
Definition registeredAreMembers (sv : Server) : Prop :=
  forall (w : WebSocket) (c : ClientConnection),
    clients sv !! w = Some c ->
    ws c = w /\
    exists roomClients,
      shareRooms sv !! shareCode c = Some roomClients /\ w ∈ roomClients.

(** Every registered connection is open. *)
Definition registeredAreOpen (wd : World) : Prop :=
  forall (w : WebSocket), is_Some (clients (server wd) !! w) -> w ∈ open wd.

(** No stored membership set is empty. *)
Definition noEmptyRoom (sv : Server) : Prop :=
  forall (code : string) (roomClients : gset WebSocket),
    shareRooms sv !! code = Some roomClients -> roomClients <> ∅.

Definition consistent (wd : World) : Prop :=
  registeredAreMembers (server wd) /\ registeredAreOpen wd /\
  noEmptyRoom (server wd).

End Invariants.

(** ** Runs over the two kinds of log *)

Module Histories.

(** One append: to the log of a content room ([createChatMessage]) or to
    the log of a standalone room ([createPrivateChatMessage]), with the
    identifier and the time the call is given. *)
Inductive Append :=
| Content (m : InsertChatMessage.t) (id : string) (now : Z)
| Private (m : InsertPrivateChatMessage.t) (id : string) (now : Z).

Definition append (st : MemStorage.t) (a : Append) : MemStorage.t :=
  match a with
  | Content m id now => (MemStorage.createChatMessage m id now st).2
  | Private m id now => (MemStorage.createPrivateChatMessage m id now st).2
  end.

(** The appends done one after the other. *)
Definition appendAll (arrivals : list Append) (st : MemStorage.t)
    : MemStorage.t :=
  foldl append st arrivals.

(** The message [createPrivateChatMessage] builds. *)
Definition stampPrivate (m : InsertPrivateChatMessage.t) (id : string)
    (now : Z) : PrivateChatMessage.t :=
  {| PrivateChatMessage.id := id;
     PrivateChatMessage.chatCode := InsertPrivateChatMessage.chatCode m;
     PrivateChatMessage.message := InsertPrivateChatMessage.message m;
     PrivateChatMessage.userId := InsertPrivateChatMessage.userId m;
     PrivateChatMessage.createdAt := now |}.

(** The content messages of a run that are addressed to one code, in the
    order of the run. *)
Fixpoint contentTo (code : string) (arrivals : list Append)
    : list ChatMessage.t :=
  match arrivals with
  | [] => []
  | Content m id now :: rest =>
      if decide (InsertChatMessage.shareCode m = code)
      then Log.stamp (m, id, now) :: contentTo code rest
      else contentTo code rest
  | Private _ _ _ :: rest => contentTo code rest
  end.

(** The same for the standalone rooms. *)
Fixpoint privateTo (code : string) (arrivals : list Append)
    : list PrivateChatMessage.t :=
  match arrivals with
  | [] => []
  | Private m id now :: rest =>
      if decide (InsertPrivateChatMessage.chatCode m = code)
      then stampPrivate m id now :: privateTo code rest
      else privateTo code rest
  | Content _ _ _ :: rest => privateTo code rest
  end.

Definition whisper (room user message : string) : InsertPrivateChatMessage.t :=
  {| InsertPrivateChatMessage.chatCode := room;
     InsertPrivateChatMessage.message := message;
     InsertPrivateChatMessage.userId := user |}.

End Histories.

(** ** Servers in the middle of a conversation *)

Module Scenarios.
Import Routes.

Definition allOpen : WebSocket -> bool := fun _ => true.

(** [A] and [B] are in the content room of ["hello"]; [A] has written. *)
Definition chatting : Server :=
  server (@run Samples.externals Samples.helloWorld Samples.contentRoomJoined).

(** [A] joined the content room of the day-long entry at time [0]. *)
Definition dayRoom : Server :=
  server (@run Samples.externals Samples.dayWorld
            [Connect 1; Receive 1 (Join "da1da1da" "A") "s-1" 0]).

(** Both entries are published, and [A] is in the room of ["hello"]. *)
Definition inHello : Server :=
  server (@run Samples.externals
            (mkWorld
               (mkServer
                  (MemStorage.createShare Samples.dayInsert "id-4" 0
                     Samples.helloStore).2 ∅ ∅) ∅)
            [Connect 1; Receive 1 (Join "ab12cd34" "A") "s-1" 10]).

(** [A] and [B] are in the standalone room [C0FFEE00]; [A] has written. *)
Definition privateRoom : Server :=
  server (@run Samples.externals start Samples.roomCreatedAndJoined).

(** [A] stays connected to the room of the day-long entry; the timer
    sweeps at minute 31, after the session's 30 minutes have run out, and
    [A] writes at minute 32. *)
Definition lateMessage : Server :=
  (onChatMessage 1 "late" "m-9" 1920000 allOpen
     (mkServer (MemStorage.cleanupExpired 1860000 (storage dayRoom))
               (clients dayRoom) (shareRooms dayRoom))).1.

End Scenarios.

(** ** The remaining-time labels of the client *)

Module Client.

(** [n > 1 ? 's' : ''] *)
Definition plural (n : Z) : string := if 1 <? n then "s" else "".

(** [getTimeRemaining] of the share display, with [expiresAt] and [now] the
    two [getTime()] values; [`${n}`] of an integer is its decimal form. *)
Definition getTimeRemaining (expiresAt now : Z) : string :=
  let diffMs := expiresAt - now in
  if diffMs <=? 0 then "Expired"
  else
    let diffMinutes := diffMs / (1000 * 60) in
    let diffHours := diffMinutes / 60 in
    let diffDays := diffHours / 24 in
    if 0 <? diffDays then pretty diffDays +:+ " day" +:+ plural diffDays
    else if 0 <? diffHours then pretty diffHours +:+ " hour" +:+ plural diffHours
    else pretty diffMinutes +:+ " minute" +:+ plural diffMinutes.

End Client.

(** * Properties of the entry store and of the room store *)

Module MemStorageFacts.
Import MemStorage.

(** ** Shares *)

Lemma getShareByCode_live (st : t) (code : string) (share : Share.t) (now : Z) :
  shares st !! code = Some share ->
  now <= Share.expiresAt share ->
  getShareByCode code now st = (Some share, st).
Proof.
  intros Hin Hlive. unfold getShareByCode. rewrite Hin.
  destruct (Z.ltb_spec (Share.expiresAt share) now); [lia | reflexivity].
Qed.

Lemma getShareByCode_expired (st : t) (code : string) (share : Share.t) (now : Z) :
  shares st !! code = Some share ->
  Share.expiresAt share < now ->
  getShareByCode code now st = (None, set_shares (delete code (shares st)) st).
Proof.
  intros Hin Hexp. unfold getShareByCode. rewrite Hin.
  destruct (Z.ltb_spec (Share.expiresAt share) now); [reflexivity | lia].
Qed.

Lemma getShareByCode_absent (st : t) (code : string) (now : Z) :
  shares st !! code = None ->
  getShareByCode code now st = (None, st).
Proof. intros Hout. unfold getShareByCode. by rewrite Hout. Qed.

Lemma set_shares_id (st : t) : set_shares (shares st) st = st.
Proof. by destruct st. Qed.

(** ** The sweep of the shares *)

Lemma sweepShare_keeps_absent (now : Z) (l : list (string * Share.t)) :
  forall (m : gmap string Share.t) (k : string),
    m !! k = None -> foldl (sweepShare now) m l !! k = None.
Proof.
  induction l as [|[k' s] l IH]; intros m k Hk; simpl; [done|].
  apply IH. unfold sweepShare; simpl.
  destruct (Share.expiresAt s <? now); [|done].
  destruct (decide (k' = k)) as [->|Hne].
  - apply lookup_delete_eq.
  - by rewrite lookup_delete_ne.
Qed.

Lemma sweepShare_removes (now : Z) (l : list (string * Share.t)) :
  forall (m : gmap string Share.t) (k : string) (s : Share.t),
    (k, s) ∈ l -> Share.expiresAt s < now ->
    foldl (sweepShare now) m l !! k = None.
Proof.
  induction l as [|[k' s'] l IH]; intros m k s Hin Hexp; simpl.
  - by apply elem_of_nil in Hin.
  - apply elem_of_cons in Hin as [Heq|Hin].
    + inversion Heq; subst k' s'.
      apply sweepShare_keeps_absent. unfold sweepShare; simpl.
      destruct (Z.ltb_spec (Share.expiresAt s) now); [|lia].
      apply lookup_delete_eq.
    + by eapply IH.
Qed.

Lemma sweepShare_keeps_live (now : Z) (l : list (string * Share.t)) :
  forall (m : gmap string Share.t) (k : string),
    (forall s, (k, s) ∈ l -> now <= Share.expiresAt s) ->
    foldl (sweepShare now) m l !! k = m !! k.
Proof.
  induction l as [|[k' s'] l IH]; intros m k Hlive; simpl; [done|].
  rewrite IH.
  - unfold sweepShare; simpl.
    destruct (Z.ltb_spec (Share.expiresAt s') now) as [Hexp|]; [|done].
    destruct (decide (k' = k)) as [->|Hne].
    + specialize (Hlive s' ltac:(left)). lia.
    + by rewrite lookup_delete_ne.
  - intros s Hs. apply Hlive. by right.
Qed.

Lemma cleanupExpired_removes (st : t) (code : string) (share : Share.t) (now : Z) :
  shares st !! code = Some share ->
  Share.expiresAt share < now ->
  shares (cleanupExpired now st) !! code = None.
Proof.
  intros Hin Hexp. unfold cleanupExpired; simpl.
  eapply sweepShare_removes; [|exact Hexp].
  by apply elem_of_map_to_list.
Qed.

Lemma cleanupExpired_keeps (st : t) (code : string) (share : Share.t) (now : Z) :
  shares st !! code = Some share ->
  now <= Share.expiresAt share ->
  shares (cleanupExpired now st) !! code = Some share.
Proof.
  intros Hin Hlive. unfold cleanupExpired; simpl.
  rewrite sweepShare_keeps_live; [done|].
  intros s Hs. apply elem_of_map_to_list in Hs.
  rewrite Hin in Hs. by inversion Hs; subst.
Qed.


(** C10.  [updateShare] on a code that is not in the share store returns
    [undefined] and leaves the whole storage as it was: no entry is made
    from the updates. *)
Theorem updateShare_absent (st : t) (code : string) (updates : PartialShare.t) :
  shares st !! code = None ->
  updateShare code updates st = (None, st).
Proof. intros Hout. unfold updateShare. by rewrite Hout. Qed.

Lemma updateShare_absent_witness :
  shares Samples.helloStore !! "FFFFFFFF" = None /\
  updateShare "FFFFFFFF" (PartialShare.only_viewCount 7) Samples.helloStore
  = (None, Samples.helloStore).
Proof.
  split; [reflexivity|].
  apply (updateShare_absent Samples.helloStore "FFFFFFFF"
           (PartialShare.only_viewCount 7)).
  reflexivity.
Defined.

(** C2, as the code has it.  [createShare] never fails and never looks at
    what is stored: it returns the new entry with [viewCount = 0] and stores
    it under its code, in place of whatever was stored there; entries under
    other codes are untouched. *)
Theorem createShare_overwrites (st : t) (insertShare : InsertShare.t)
    (id : string) (now : Z) :
  let share := (createShare insertShare id now st).1 in
  let st' := (createShare insertShare id now st).2 in
  Share.code share = InsertShare.code insertShare /\
  Share.content share = InsertShare.content insertShare /\
  Share.viewCount share = 0 /\
  shares st' !! InsertShare.code insertShare = Some share /\
  (forall other, other <> InsertShare.code insertShare ->
     shares st' !! other = shares st !! other).
Proof.
  simpl.
  do 3 (split; [reflexivity|]).
  split.
  - apply lookup_insert_eq.
  - intros other Hne. by rewrite lookup_insert_ne.
Qed.

(** C2 fails as stated: a second [createShare] under the code of a live
    entry replaces that entry. *)
Lemma createShare_duplicate_counterexample :
  let old := (createShare Samples.helloInsert "id-1" 0 new).1 in
  let st' := (createShare Samples.clashInsert "id-9" 1000 Samples.helloStore).2 in
  shares Samples.helloStore !! "AB12CD34" = Some old /\
  1000 <= Share.expiresAt old /\
  InsertShare.code Samples.clashInsert = "AB12CD34" /\
  shares st' !! "AB12CD34" <> Some old /\
  Share.content <$> shares st' !! "AB12CD34" = Some "other".
Proof.
  simpl.
  split; [reflexivity|].
  split; [lia|].
  split; [reflexivity|].
  split; [|reflexivity].
  rewrite lookup_insert_eq. intros Heq. discriminate Heq.
Qed.

(** C7, as the code has it.  An entry whose [expiresAt] is strictly before
    [now] is absent for [getShareByCode] at [now], which deletes it, and is
    removed by [cleanupExpired] at [now]: both decide by [expiresAt < now]. *)
Theorem expired_strictly_before_now (st : t) (code : string) (share : Share.t)
    (now : Z) :
  shares st !! code = Some share ->
  Share.expiresAt share < now ->
  getShareByCode code now st = (None, set_shares (delete code (shares st)) st) /\
  shares (getShareByCode code now st).2 !! code = None /\
  shares (cleanupExpired now st) !! code = None.
Proof.
  intros Hin Hexp.
  rewrite (getShareByCode_expired st code share now Hin Hexp).
  split; [reflexivity|].
  split.
  - apply lookup_delete_eq.
  - by eapply cleanupExpired_removes.
Qed.

Lemma expired_strictly_before_now_witness :
  getShareByCode "AB12CD34" 60001 Samples.helloStore
  = (None, set_shares (delete "AB12CD34" (shares Samples.helloStore))
             Samples.helloStore) /\
  shares (getShareByCode "AB12CD34" 60001 Samples.helloStore).2 !! "AB12CD34"
  = None /\
  shares (cleanupExpired 60001 Samples.helloStore) !! "AB12CD34" = None.
Proof.
  apply (expired_strictly_before_now Samples.helloStore "AB12CD34"
           (createShare Samples.helloInsert "id-1" 0 new).1 60001).
  - reflexivity.
  - simpl. lia.
Defined.

(** C7 fails as stated at equality: with [expiresAt = now] the entry is
    still returned by [getShareByCode] and survives [cleanupExpired]. *)
Lemma expiry_at_equality_counterexample :
  let share := (createShare Samples.helloInsert "id-1" 0 new).1 in
  shares Samples.helloStore !! "AB12CD34" = Some share /\
  Share.expiresAt share <= 60000 /\
  getShareByCode "AB12CD34" 60000 Samples.helloStore
  = (Some share, Samples.helloStore) /\
  shares (cleanupExpired 60000 Samples.helloStore) !! "AB12CD34" = Some share.
Proof.
  intros share.
  assert (Hin : shares Samples.helloStore !! "AB12CD34" = Some share)
    by reflexivity.
  split; [exact Hin|].
  split; [simpl; lia|].
  split.
  - apply getShareByCode_live; [exact Hin | simpl; lia].
  - apply cleanupExpired_keeps; [exact Hin | simpl; lia].
Qed.


(** ** Rooms and their logs *)

(** C8.  An update that carries only [activeUsers] changes that field of the
    stored session and nothing else: [expiresAt], [id], [shareCode] and
    [createdAt] stay, the message logs stay, and so does every other room. *)
Theorem updateChatSession_only_activeUsers (st : t) (shareCode : string)
    (session : ChatSession.t) (n : Z) :
  chatSessions st !! shareCode = Some session ->
  let updated :=
    {| ChatSession.id := ChatSession.id session;
       ChatSession.shareCode := ChatSession.shareCode session;
       ChatSession.activeUsers := n;
       ChatSession.expiresAt := ChatSession.expiresAt session;
       ChatSession.createdAt := ChatSession.createdAt session |} in
  let st' :=
    (updateChatSession shareCode (PartialChatSession.only_activeUsers n) st).2 in
  (updateChatSession shareCode (PartialChatSession.only_activeUsers n) st).1
  = Some updated /\
  chatSessions st' !! shareCode = Some updated /\
  (forall other, other <> shareCode ->
     chatSessions st' !! other = chatSessions st !! other) /\
  chatMessages st' = chatMessages st /\
  shares st' = shares st /\
  privateChatSessions st' = privateChatSessions st /\
  privateChatMessages st' = privateChatMessages st.
Proof.
  intros Hin. unfold updateChatSession. rewrite Hin. simpl.
  split; [reflexivity|].
  split; [apply lookup_insert_eq|].
  split; [|done].
  intros other Hne. by rewrite lookup_insert_ne.
Qed.

Lemma updateChatSession_only_activeUsers_witness :
  chatSessions Samples.roomStore !! "AB12CD34"
  = Some (ChatSession.mk "id-3" "AB12CD34" 1 1800000 0) /\
  (updateChatSession "AB12CD34" (PartialChatSession.only_activeUsers 2)
     Samples.roomStore).1
  = Some (ChatSession.mk "id-3" "AB12CD34" 2 1800000 0).
Proof.
  split; [reflexivity|].
  apply (updateChatSession_only_activeUsers Samples.roomStore "AB12CD34"
           (ChatSession.mk "id-3" "AB12CD34" 1 1800000 0) 2).
  reflexivity.
Defined.

(** The same holds of a standalone room. *)
Lemma updatePrivateChatSession_only_activeUsers (st : t) (chatCode : string)
    (session : PrivateChatSession.t) (n : Z) :
  privateChatSessions st !! chatCode = Some session ->
  (updatePrivateChatSession chatCode
     (PartialPrivateChatSession.only_activeUsers n) st).1
  = Some {| PrivateChatSession.id := PrivateChatSession.id session;
            PrivateChatSession.code := PrivateChatSession.code session;
            PrivateChatSession.activeUsers := n;
            PrivateChatSession.expiresAt := PrivateChatSession.expiresAt session;
            PrivateChatSession.createdAt := PrivateChatSession.createdAt session |}.
Proof. intros Hin. unfold updatePrivateChatSession. by rewrite Hin. Qed.

Lemma createChatMessage_stamp (st : t) (a : Log.Arrival) :
  (createChatMessage a.1.1 a.1.2 a.2 st).1 = Log.stamp a.
Proof. reflexivity. Qed.

Lemma getChatMessages_createChatMessage (st : t) (a : Log.Arrival)
    (code : string) :
  getChatMessages code (createChatMessage a.1.1 a.1.2 a.2 st).2
  = if decide (Log.room a = code)
    then getChatMessages code st ++ [Log.stamp a]
    else getChatMessages code st.
Proof.
  unfold getChatMessages, createChatMessage, Log.room; simpl.
  destruct (decide (InsertChatMessage.shareCode a.1.1 = code)) as [<-|Hne].
  - by rewrite lookup_insert_eq.
  - by rewrite lookup_insert_ne.
Qed.

Lemma getChatMessages_appendAll (arrivals : list Log.Arrival) :
  forall (st : t) (code : string),
    getChatMessages code (Log.appendAll arrivals st)
    = getChatMessages code st ++ (Log.stamp <$> Log.sentTo code arrivals).
Proof.
  induction arrivals as [|a arrivals IH]; intros st code.
  - simpl. by rewrite app_nil_r.
  - change (Log.appendAll (a :: arrivals) st)
      with (Log.appendAll arrivals (createChatMessage a.1.1 a.1.2 a.2 st).2).
    rewrite IH, getChatMessages_createChatMessage.
    unfold Log.sentTo. rewrite filter_cons.
    destruct (decide (Log.room a = code)); [|done].
    rewrite fmap_cons. by rewrite <- app_assoc.
Qed.

(** C3, as the code has it.  [createChatMessage] never fails and never looks
    at the sessions: for every room code, live, expired or absent, it returns
    the stamped message and puts it at the end of that code's log; the
    sessions are untouched. *)
Theorem createChatMessage_appends (st : t) (insertMessage : InsertChatMessage.t)
    (id : string) (now : Z) :
  let message := (createChatMessage insertMessage id now st).1 in
  let st' := (createChatMessage insertMessage id now st).2 in
  message = Log.stamp (insertMessage, id, now) /\
  getChatMessages (InsertChatMessage.shareCode insertMessage) st'
  = getChatMessages (InsertChatMessage.shareCode insertMessage) st ++ [message] /\
  chatSessions st' = chatSessions st.
Proof.
  simpl. split; [reflexivity|]. split; [|reflexivity].
  unfold getChatMessages; simpl. by rewrite lookup_insert_eq.
Qed.

(** C3 fails as stated: a message sent to a code that has no room at all is
    stored, and a log appears for that code. *)
Lemma createChatMessage_absent_room_counterexample :
  chatSessions new !! "AB12CD34" = None /\
  (getChatSession "AB12CD34" 5 new).1 = None /\
  getChatMessages "AB12CD34"
    (createChatMessage (Samples.hi "AB12CD34" "A" "hello") "m-1" 5 new).2
  = [ChatMessage.mk "m-1" "AB12CD34" "hello" "A" (Some 5)].
Proof. split; [reflexivity|]. split; reflexivity. Qed.

End MemStorageFacts.

(** * Properties of the share read endpoint *)

Module GetShareFacts.
Import MemStorage Routes.

Section WithExternals.
Context `{Externals}.

Lemma checkPassword_open (share : Share.t) (password : option string) :
  Js.truthy_string (Share.password share) = false ->
  checkPassword share password = None.
Proof. intros Hopen. unfold checkPassword. by rewrite Hopen. Qed.

Lemma checkPassword_verified (share : Share.t) (hash given : string) :
  Share.password share = Some hash -> hash <> "" -> given <> "" ->
  bcrypt_compare given hash = true ->
  checkPassword share (Some given) = None.
Proof.
  intros Hhash Hne Hgiven Hok. unfold checkPassword. rewrite Hhash. simpl.
  destruct (String.eqb_spec hash ""); [done|].
  destruct (String.eqb_spec given ""); [done|].
  simpl. by rewrite Hok.
Qed.

Lemma getShare_absent (st : t) (code : string) (password : option string)
    (now : Z) :
  shares st !! toUpperCase code = None ->
  getShare code password now st = (NotFound, st).
Proof.
  intros Hout. unfold getShare.
  by rewrite (MemStorageFacts.getShareByCode_absent _ _ _ Hout).
Qed.

(** C6.  On a live entry that has a password, a read with no password, an
    empty one, or one that [bcrypt.compare] rejects answers "password
    required" (no password) or "invalid password" (a wrong one) and leaves
    the storage exactly as it was: [viewCount] is not incremented and a
    one-time-view entry is not deleted. *)
Theorem getShare_password_gate (st : t) (code : string)
    (password : option string) (now : Z) (share : Share.t) (hash : string) :
  shares st !! toUpperCase code = Some share ->
  now <= Share.expiresAt share ->
  Share.password share = Some hash ->
  hash <> "" ->
  (forall given, password = Some given -> given <> "" ->
     bcrypt_compare given hash = false) ->
  getShare code password now st
  = (if Js.truthy_string password then InvalidPassword else RequiresPassword,
     st).
Proof.
  intros Hin Hlive Hhash Hne Hbad. unfold getShare.
  rewrite (MemStorageFacts.getShareByCode_live _ _ _ _ Hin Hlive).
  unfold checkPassword. rewrite Hhash. simpl.
  destruct (String.eqb_spec hash ""); [done|]. simpl.
  destruct password as [given|]; simpl; [|reflexivity].
  destruct (String.eqb_spec given ""); simpl; [reflexivity|].
  by rewrite (Hbad given eq_refl).
Qed.

(** C1.  A read of a live one-time-view entry that gets past the password
    check answers with the entry's content and leaves the storage without
    the entry; from then on every read of that code, with any password and
    at any time, answers "not found", and so does [getShareByCode]. *)
Theorem getShare_one_time_view (st : t) (code : string)
    (password : option string) (now : Z) (share : Share.t) :
  shares st !! toUpperCase code = Some share ->
  now <= Share.expiresAt share ->
  Share.oneTimeView share = true ->
  checkPassword share password = None ->
  let st' := set_shares (delete (toUpperCase code) (shares st)) st in
  (exists data,
     getShare code password now st = (ShareBody data, st') /\
     content data = Share.content share) /\
  shares st' !! toUpperCase code = None /\
  (forall password' now', getShare code password' now' st' = (NotFound, st')) /\
  (forall now', getShareByCode (toUpperCase code) now' st' = (None, st')).
Proof.
  intros Hin Hlive Honce Hgate st'.
  assert (Hgone : shares st' !! toUpperCase code = None)
    by apply lookup_delete_eq.
  split; [|split; [exact Hgone|split]].
  - unfold getShare.
    rewrite (MemStorageFacts.getShareByCode_live _ _ _ _ Hin Hlive), Hgate.
    unfold updateShare. rewrite Hin. rewrite Honce.
    eexists. split.
    + unfold deleteShare, set_shares, st'. simpl.
      rewrite delete_insert_eq. reflexivity.
    + reflexivity.
  - intros password' now'. by apply getShare_absent.
  - intros now'. by apply MemStorageFacts.getShareByCode_absent.
Qed.

End WithExternals.

(** The scenario of the one-time view: the entry ["hello"] is read once
    through its code in lower case, and is gone. *)
Lemma getShare_one_time_view_witness :
  let st' := set_shares (delete "AB12CD34" (shares Samples.helloStore))
               Samples.helloStore in
  (exists data,
     @getShare Samples.externals "ab12cd34" None 1000 Samples.helloStore
     = (ShareBody data, st') /\
     content data = "hello") /\
  shares st' !! "AB12CD34" = None /\
  (forall password' now',
     @getShare Samples.externals "ab12cd34" password' now' st' = (NotFound, st')) /\
  (forall now', getShareByCode "AB12CD34" now' st' = (None, st')).
Proof.
  apply (@getShare_one_time_view Samples.externals Samples.helloStore
           "ab12cd34" None 1000
           (createShare Samples.helloInsert "id-1" 0 new).1).
  - reflexivity.
  - simpl. lia.
  - reflexivity.
  - reflexivity.
Defined.

Lemma getShare_password_gate_witness :
  @getShare Samples.externals "0f0f0f0f" (Some "guess") 1000 Samples.lockedStore
  = (InvalidPassword, Samples.lockedStore).
Proof.
  apply (@getShare_password_gate Samples.externals Samples.lockedStore
           "0f0f0f0f" (Some "guess") 1000
           (createShare Samples.lockedInsert "id-2" 0 new).1
           (Samples.toyHash "secret")).
  - reflexivity.
  - simpl. lia.
  - reflexivity.
  - discriminate.
  - intros given Hgiven _. inversion Hgiven; subst given. reflexivity.
Defined.

(** With the right password the same read goes through, once. *)
Example getShare_locked_then_gone :
  (@getShare Samples.externals "0f0f0f0f" (Some "secret") 1000
     Samples.lockedStore).2
  = set_shares ∅ Samples.lockedStore.
Proof. reflexivity. Qed.

End GetShareFacts.

(** * Properties of the broker *)

Module BrokerFacts.
Import MemStorage Routes.

(** ** What a disconnect does to the storage *)

(** [ws.on('close')] reaches the storage through [deleteChatSession] and
    [updateChatSession] only: the tables of the standalone rooms are never
    written. *)
Lemma onClose_private_tables (w : WebSocket) (isOpen : WebSocket -> bool)
    (sv : Server) :
  privateChatSessions (storage (onClose w isOpen sv).1)
  = privateChatSessions (storage sv) /\
  privateChatMessages (storage (onClose w isOpen sv).1)
  = privateChatMessages (storage sv).
Proof.
  unfold onClose.
  destruct (clients sv !! w) as [client|]; [|done].
  destruct (shareRooms sv !! shareCode client) as [roomClients|]; [|done].
  case_bool_decide; simpl; [done|].
  unfold updateChatSession.
  by destruct (chatSessions (storage sv) !! shareCode client).
Qed.

(** When the last member of a room leaves, the content room of that code
    goes, session and log together. *)
Lemma onClose_last_member (w : WebSocket) (isOpen : WebSocket -> bool)
    (sv : Server) (client : ClientConnection) (roomClients : gset WebSocket) :
  clients sv !! w = Some client ->
  shareRooms sv !! shareCode client = Some roomClients ->
  roomClients ∖ {[w]} = ∅ ->
  let sv' := (onClose w isOpen sv).1 in
  shareRooms sv' !! shareCode client = None /\
  chatSessions (storage sv') !! shareCode client = None /\
  chatMessages (storage sv') !! shareCode client = None.
Proof.
  intros Hclient Hroom Hlast. unfold onClose. rewrite Hclient, Hroom, Hlast.
  rewrite bool_decide_eq_true_2 by apply size_empty. simpl.
  by rewrite !lookup_delete_eq.
Qed.

(** When others remain, the content session of that code, if there is one,
    gets the number of the remaining members. *)
Lemma onClose_others_remain (w : WebSocket) (isOpen : WebSocket -> bool)
    (sv : Server) (client : ClientConnection) (roomClients : gset WebSocket)
    (session : ChatSession.t) :
  clients sv !! w = Some client ->
  shareRooms sv !! shareCode client = Some roomClients ->
  roomClients ∖ {[w]} <> ∅ ->
  chatSessions (storage sv) !! shareCode client = Some session ->
  let sv' := (onClose w isOpen sv).1 in
  shareRooms sv' !! shareCode client = Some (roomClients ∖ {[w]}) /\
  ChatSession.activeUsers <$> chatSessions (storage sv') !! shareCode client
  = Some (Z.of_nat (size (roomClients ∖ {[w]}))) /\
  ChatSession.expiresAt <$> chatSessions (storage sv') !! shareCode client
  = Some (ChatSession.expiresAt session).
Proof.
  intros Hclient Hroom Hrest Hsession. unfold onClose.
  rewrite Hclient, Hroom.
  rewrite bool_decide_eq_false_2
    by (intros Hsize; by apply size_empty_inv, leibniz_equiv in Hsize).
  unfold updateChatSession. rewrite Hsession. simpl.
  by rewrite !lookup_insert_eq.
Qed.

(** ** What a join does to the stored count *)

Section WithExternals.
Context `{Externals}.

(** A join to a live standalone room stores the size of the membership set
    and keeps [expiresAt]. *)
Lemma onJoinPrivateChat_count (w : WebSocket) (chatCode userId : string)
    (now : Z) (isOpen : WebSocket -> bool) (sv : Server)
    (session : PrivateChatSession.t) :
  privateChatSessions (storage sv) !! toUpperCase chatCode = Some session ->
  now <= PrivateChatSession.expiresAt session ->
  let sv' := (onJoinPrivateChat w chatCode userId now isOpen sv).1 in
  privateChatSessions (storage sv') !! toUpperCase chatCode
  = Some {| PrivateChatSession.id := PrivateChatSession.id session;
            PrivateChatSession.code := PrivateChatSession.code session;
            PrivateChatSession.activeUsers :=
              roomSize (toUpperCase chatCode) (shareRooms sv');
            PrivateChatSession.expiresAt := PrivateChatSession.expiresAt session;
            PrivateChatSession.createdAt := PrivateChatSession.createdAt session |}.
Proof.
  intros Hin Hlive. unfold onJoinPrivateChat, getPrivateChatSession.
  rewrite Hin.
  destruct (Z.ltb_spec (PrivateChatSession.expiresAt session) now); [lia|].
  unfold updatePrivateChatSession. rewrite Hin. simpl.
  by rewrite lookup_insert_eq.
Qed.

(** A join to a content room whose session is live stores the size of the
    membership set and keeps [expiresAt]. *)
Lemma onJoin_count (w : WebSocket) (code userId id : string) (now : Z)
    (isOpen : WebSocket -> bool) (sv : Server) (share : Share.t)
    (session : ChatSession.t) :
  shares (storage sv) !! toUpperCase code = Some share ->
  now <= Share.expiresAt share ->
  chatSessions (storage sv) !! toUpperCase code = Some session ->
  now <= ChatSession.expiresAt session ->
  let sv' := (onJoin w code userId id now isOpen sv).1 in
  chatSessions (storage sv') !! toUpperCase code
  = Some {| ChatSession.id := ChatSession.id session;
            ChatSession.shareCode := ChatSession.shareCode session;
            ChatSession.activeUsers :=
              roomSize (toUpperCase code) (shareRooms sv');
            ChatSession.expiresAt := ChatSession.expiresAt session;
            ChatSession.createdAt := ChatSession.createdAt session |}.
Proof.
  intros Hshare Hlive Hin Hslive. unfold onJoin.
  rewrite (MemStorageFacts.getShareByCode_live _ _ _ _ Hshare Hlive).
  unfold getChatSession. rewrite Hin.
  destruct (Z.ltb_spec (ChatSession.expiresAt session) now); [lia|].
  unfold updateChatSession. rewrite Hin. simpl.
  by rewrite lookup_insert_eq.
Qed.

(** A join to a content room whose session is missing or has run out
    stores the count 1, whatever the size of the membership set. *)
Lemma onJoin_count_new_session (w : WebSocket) (code userId id : string)
    (now : Z) (isOpen : WebSocket -> bool) (sv : Server) (share : Share.t) :
  shares (storage sv) !! toUpperCase code = Some share ->
  now <= Share.expiresAt share ->
  (getChatSession (toUpperCase code) now (storage sv)).1 = None ->
  let sv' := (onJoin w code userId id now isOpen sv).1 in
  chatSessions (storage sv') !! toUpperCase code
  = Some {| ChatSession.id := id;
            ChatSession.shareCode := toUpperCase code;
            ChatSession.activeUsers := 1;
            ChatSession.expiresAt := now + 30 * 60 * 1000;
            ChatSession.createdAt := now |}.
Proof.
  intros Hshare Hlive Hnone. unfold onJoin.
  rewrite (MemStorageFacts.getShareByCode_live _ _ _ _ Hshare Hlive).
  destruct (getChatSession (toUpperCase code) now (storage sv))
    as [found st2] eqn:Hget.
  simpl in Hnone. subst found. simpl.
  by rewrite lookup_insert_eq.
Qed.

End WithExternals.

(** ** The two kinds of room, run side by side *)

(** A content room whose session ran out while [A] stayed connected: the
    join of [B] stores the count 1 for a room of two. *)
Example content_room_count_after_session_expiry :
  let wd := @run Samples.externals Samples.dayWorld Samples.joinAfterSessionExpiry in
  open wd = {[1%positive; 2%positive]} /\
  shareRooms (server wd) !! "DA1DA1DA" = Some {[1%positive; 2%positive]} /\
  ChatSession.activeUsers <$>
    chatSessions (storage (server wd)) !! "DA1DA1DA" = Some 1.
Proof. vm_compute. repeat split; reflexivity. Qed.

(** A content room: after [A] leaves the stored count is 1, the number of
    members; after [B] leaves the session and the log are both gone. *)
Example content_room_scenario :
  let joined := @run Samples.externals Samples.helloWorld Samples.contentRoomJoined in
  let aLeft := @run Samples.externals joined [Disconnect 1] in
  let bLeft := @run Samples.externals aLeft [Disconnect 2] in
  ChatSession.activeUsers <$>
    chatSessions (storage (server joined)) !! "AB12CD34" = Some 2 /\
  shareRooms (server aLeft) !! "AB12CD34" = Some {[2%positive]} /\
  ChatSession.activeUsers <$>
    chatSessions (storage (server aLeft)) !! "AB12CD34" = Some 1 /\
  shareRooms (server bLeft) !! "AB12CD34" = None /\
  chatSessions (storage (server bLeft)) !! "AB12CD34" = None /\
  chatMessages (storage (server bLeft)) !! "AB12CD34" = None.
Proof. vm_compute. repeat split; reflexivity. Qed.

(** C5 on the standalone room of the scenario.  After [A] and [B] joined
    the stored count is 2; after [A] left, [B] is the one open connection
    and the one member of the room, and the stored count is still 2. *)
Theorem private_room_count_after_disconnect :
  let joined := @run Samples.externals start Samples.roomCreatedAndJoined in
  let aLeft := @run Samples.externals start Samples.thenALeaves in
  PrivateChatSession.activeUsers <$>
    privateChatSessions (storage (server joined)) !! "C0FFEE00" = Some 2 /\
  open aLeft = {[2%positive]} /\
  shareRooms (server aLeft) !! "C0FFEE00" = Some {[2%positive]} /\
  PrivateChatSession.activeUsers <$>
    privateChatSessions (storage (server aLeft)) !! "C0FFEE00" = Some 2.
Proof. vm_compute. repeat split; reflexivity. Qed.

(** C4 on the standalone room of the scenario.  After the last member left,
    no connection is open and the membership set is gone, and the room
    record and its log are both still stored. *)
Theorem private_room_after_last_disconnect :
  let bLeft := @run Samples.externals start Samples.thenBLeaves in
  open bLeft = ∅ /\
  clients (server bLeft) = ∅ /\
  shareRooms (server bLeft) !! "C0FFEE00" = None /\
  privateChatSessions (storage (server bLeft)) !! "C0FFEE00"
  = Some (PrivateChatSession.mk "s-1" "C0FFEE00" 2 7200000 0) /\
  getPrivateChatMessages "C0FFEE00" (storage (server bLeft))
  = [PrivateChatMessage.mk "m-1" "C0FFEE00" "hi" "A" 30].
Proof. vm_compute. repeat split; reflexivity. Qed.

End BrokerFacts.

(** * The periodic sweep *)

Module SweepFacts.
Import MemStorage.

(** ** A loop that deletes from two maps by the entries of a snapshot *)

Section TwoMaps.
Context {A B : Type} (expired : A -> bool).

Local Abbreviation sweep2 := (Sweep.sweep2 (B := B) expired).

Lemma sweep2_keeps_absent (l : list (string * A)) :
  forall (acc : gmap string A * gmap string B) (k : string),
    (acc.1 !! k = None -> (foldl sweep2 acc l).1 !! k = None) /\
    (acc.2 !! k = None -> (foldl sweep2 acc l).2 !! k = None).
Proof.
  induction l as [|[k' a] l IH]; intros acc k; simpl; [done|].
  unfold sweep2 at 2 4; simpl.
  destruct (expired a); [|apply IH].
  split; intros Hk; apply IH; simpl;
    (destruct (decide (k' = k)) as [->|Hne];
     [apply lookup_delete_eq | by rewrite lookup_delete_ne]).
Qed.

Lemma sweep2_removes (l : list (string * A)) :
  forall (acc : gmap string A * gmap string B) (k : string) (a : A),
    (k, a) ∈ l -> expired a = true ->
    (foldl sweep2 acc l).1 !! k = None /\ (foldl sweep2 acc l).2 !! k = None.
Proof.
  induction l as [|[k' a'] l IH]; intros acc k a Hin Hexp; simpl.
  - by apply elem_of_nil in Hin.
  - apply elem_of_cons in Hin as [Heq|Hin]; [|by eapply IH].
    inversion Heq; subst k' a'.
    unfold sweep2 at 2 4; simpl. rewrite Hexp.
    split; apply sweep2_keeps_absent; simpl; apply lookup_delete_eq.
Qed.

Lemma sweep2_keeps_live (l : list (string * A)) :
  forall (acc : gmap string A * gmap string B) (k : string),
    (forall a, (k, a) ∈ l -> expired a = false) ->
    (foldl sweep2 acc l).1 !! k = acc.1 !! k /\
    (foldl sweep2 acc l).2 !! k = acc.2 !! k.
Proof.
  induction l as [|[k' a'] l IH]; intros acc k Hlive; simpl; [done|].
  destruct (IH (sweep2 acc (k', a')) k) as [IH1 IH2].
  { intros a Ha. apply Hlive. by right. }
  rewrite IH1, IH2. unfold sweep2; simpl.
  destruct (expired a') eqn:Hexp; [|done].
  destruct (decide (k' = k)) as [->|Hne].
  - rewrite (Hlive a') in Hexp by left. discriminate.
  - simpl. by rewrite !lookup_delete_ne.
Qed.

(** What the loop leaves at a key, when the snapshot is the first map. *)
Lemma sweep2_snapshot (m : gmap string A) (n : gmap string B) (k : string) :
  let r := foldl sweep2 (m, n) (map_to_list m) in
  r.1 !! k = (match m !! k with
              | Some a => if expired a then None else Some a
              | None => None
              end) /\
  r.2 !! k = (match m !! k with
              | Some a => if expired a then None else n !! k
              | None => n !! k
              end).
Proof.
  simpl. destruct (m !! k) as [a|] eqn:Hk.
  - destruct (expired a) eqn:Hexp.
    + eapply sweep2_removes; [|exact Hexp]. by apply elem_of_map_to_list.
    + rewrite <- Hk.
      apply (sweep2_keeps_live (map_to_list m) (m, n) k).
      intros a' Ha'. apply elem_of_map_to_list in Ha'.
      rewrite Hk in Ha'. by inversion Ha'; subst.
  - rewrite <- Hk.
    apply (sweep2_keeps_live (map_to_list m) (m, n) k).
    intros a' Ha'. apply elem_of_map_to_list in Ha'.
    rewrite Hk in Ha'. discriminate.
Qed.

End TwoMaps.

Lemma sweepChat_sweep2 (now : Z) :
  sweepChat now
  = Sweep.sweep2 (B := list ChatMessage.t)
      (fun s => ChatSession.expiresAt s <? now).
Proof. reflexivity. Qed.

Lemma sweepPrivate_sweep2 (now : Z) :
  sweepPrivate now
  = Sweep.sweep2 (B := list PrivateChatMessage.t)
      (fun s => PrivateChatSession.expiresAt s <? now).
Proof. reflexivity. Qed.

Lemma cleanupExpired_shares (now : Z) (st : t) (code : string) :
  shares (cleanupExpired now st) !! code
  = match shares st !! code with
    | Some share => if Share.expiresAt share <? now then None else Some share
    | None => None
    end.
Proof.
  destruct (shares st !! code) as [share|] eqn:Hk.
  - destruct (Z.ltb_spec (Share.expiresAt share) now).
    + by eapply MemStorageFacts.cleanupExpired_removes.
    + by eapply MemStorageFacts.cleanupExpired_keeps.
  - unfold cleanupExpired; simpl.
    by apply MemStorageFacts.sweepShare_keeps_absent.
Qed.

Lemma cleanupExpired_chat (now : Z) (st : t) (code : string) :
  chatSessions (cleanupExpired now st) !! code
  = match chatSessions st !! code with
    | Some s => if ChatSession.expiresAt s <? now then None else Some s
    | None => None
    end /\
  chatMessages (cleanupExpired now st) !! code
  = match chatSessions st !! code with
    | Some s =>
        if ChatSession.expiresAt s <? now then None else chatMessages st !! code
    | None => chatMessages st !! code
    end.
Proof.
  unfold cleanupExpired; simpl. rewrite sweepChat_sweep2.
  apply (sweep2_snapshot (fun s => ChatSession.expiresAt s <? now)
           (chatSessions st) (chatMessages st) code).
Qed.

Lemma cleanupExpired_private (now : Z) (st : t) (code : string) :
  privateChatSessions (cleanupExpired now st) !! code
  = match privateChatSessions st !! code with
    | Some s => if PrivateChatSession.expiresAt s <? now then None else Some s
    | None => None
    end /\
  privateChatMessages (cleanupExpired now st) !! code
  = match privateChatSessions st !! code with
    | Some s =>
        if PrivateChatSession.expiresAt s <? now then None
        else privateChatMessages st !! code
    | None => privateChatMessages st !! code
    end.
Proof.
  unfold cleanupExpired; simpl. rewrite sweepPrivate_sweep2.
  apply (sweep2_snapshot (fun s => PrivateChatSession.expiresAt s <? now)
           (privateChatSessions st) (privateChatMessages st) code).
Qed.

(** The sweep is a filter on the three tables of records: an entry, a
    session, a standalone session stays exactly when [expiresAt < now] is
    false.  A log goes exactly when the session of its code is stored and
    goes; a log whose code has no session is not reached by the sweep. *)
Theorem cleanupExpired_filters (now : Z) (st : t) (code : string) :
  let st' := cleanupExpired now st in
  shares st' !! code
  = match shares st !! code with
    | Some share => if Share.expiresAt share <? now then None else Some share
    | None => None
    end /\
  chatSessions st' !! code
  = match chatSessions st !! code with
    | Some s => if ChatSession.expiresAt s <? now then None else Some s
    | None => None
    end /\
  chatMessages st' !! code
  = match chatSessions st !! code with
    | Some s =>
        if ChatSession.expiresAt s <? now then None else chatMessages st !! code
    | None => chatMessages st !! code
    end /\
  privateChatSessions st' !! code
  = match privateChatSessions st !! code with
    | Some s => if PrivateChatSession.expiresAt s <? now then None else Some s
    | None => None
    end /\
  privateChatMessages st' !! code
  = match privateChatSessions st !! code with
    | Some s =>
        if PrivateChatSession.expiresAt s <? now then None
        else privateChatMessages st !! code
    | None => privateChatMessages st !! code
    end.
Proof.
  cbv zeta.
  split; [apply cleanupExpired_shares|].
  split; [apply cleanupExpired_chat|].
  split; [apply cleanupExpired_chat|].
  split; apply cleanupExpired_private.
Qed.

Lemma storage_eq (a b : t) :
  shares a = shares b ->
  chatSessions a = chatSessions b ->
  chatMessages a = chatMessages b ->
  privateChatSessions a = privateChatSessions b ->
  privateChatMessages a = privateChatMessages b ->
  a = b.
Proof. destruct a, b; simpl; congruence. Qed.

(** Sweeping twice at the same time is sweeping once. *)
Theorem cleanupExpired_idempotent (now : Z) (st : t) :
  cleanupExpired now (cleanupExpired now st) = cleanupExpired now st.
Proof.
  apply storage_eq; apply map_eq; intros k.
  - rewrite !cleanupExpired_shares.
    destruct (shares st !! k) as [s|]; [|done].
    destruct (Share.expiresAt s <? now) eqn:Hexp; [done|]. by rewrite Hexp.
  - rewrite !(proj1 (cleanupExpired_chat _ _ _)).
    destruct (chatSessions st !! k) as [s|]; [|done].
    destruct (ChatSession.expiresAt s <? now) eqn:Hexp; [done|]. by rewrite Hexp.
  - rewrite (proj2 (cleanupExpired_chat now (cleanupExpired now st) k)).
    rewrite (proj1 (cleanupExpired_chat now st k)).
    rewrite (proj2 (cleanupExpired_chat now st k)).
    destruct (chatSessions st !! k) as [s|]; [|done].
    destruct (ChatSession.expiresAt s <? now) eqn:Hexp; [done|]. by rewrite Hexp.
  - rewrite !(proj1 (cleanupExpired_private _ _ _)).
    destruct (privateChatSessions st !! k) as [s|]; [|done].
    destruct (PrivateChatSession.expiresAt s <? now) eqn:Hexp; [done|].
    by rewrite Hexp.
  - rewrite (proj2 (cleanupExpired_private now (cleanupExpired now st) k)).
    rewrite (proj1 (cleanupExpired_private now st k)).
    rewrite (proj2 (cleanupExpired_private now st k)).
    destruct (privateChatSessions st !! k) as [s|]; [|done].
    destruct (PrivateChatSession.expiresAt s <? now) eqn:Hexp; [done|].
    by rewrite Hexp.
Qed.

(** After a sweep at [now], the lazy checks at [now] find nothing left to
    delete: each read answers as it would have before the sweep and leaves
    the swept storage as it is. *)
Theorem lazy_expiry_after_sweep (now : Z) (st : t) (code : string) :
  getShareByCode code now (cleanupExpired now st)
  = ((getShareByCode code now st).1, cleanupExpired now st) /\
  getChatSession code now (cleanupExpired now st)
  = ((getChatSession code now st).1, cleanupExpired now st) /\
  getPrivateChatSession code now (cleanupExpired now st)
  = ((getPrivateChatSession code now st).1, cleanupExpired now st).
Proof.
  split; [|split].
  - unfold getShareByCode. rewrite cleanupExpired_shares.
    destruct (shares st !! code) as [s|]; [|done].
    destruct (Share.expiresAt s <? now) eqn:Hexp; [done|]. by rewrite Hexp.
  - unfold getChatSession. rewrite (proj1 (cleanupExpired_chat _ _ _)).
    destruct (chatSessions st !! code) as [s|]; [|done].
    destruct (ChatSession.expiresAt s <? now) eqn:Hexp; [done|]. by rewrite Hexp.
  - unfold getPrivateChatSession.
    rewrite (proj1 (cleanupExpired_private _ _ _)).
    destruct (privateChatSessions st !! code) as [s|]; [|done].
    destruct (PrivateChatSession.expiresAt s <? now) eqn:Hexp; [done|].
    by rewrite Hexp.
Qed.

End SweepFacts.

(** * Deleting, lazily and on request *)

Module StoreFacts.
Import MemStorage.

(** [deleteShare] answers whether the code was stored and removes it; a
    second [deleteShare] answers [false] and changes nothing. *)
Theorem deleteShare_twice (st : t) (code : string) :
  let r := deleteShare code st in
  (r.1 = true <-> is_Some (shares st !! code)) /\
  shares r.2 !! code = None /\
  deleteShare code r.2 = (false, r.2).
Proof.
  simpl. split; [apply bool_decide_eq_true|].
  split; [apply lookup_delete_eq|].
  unfold deleteShare, set_shares; simpl.
  by rewrite lookup_delete_eq, delete_delete_eq.
Qed.

(** [deleteChatSession] removes the session and the log of a code together,
    and its answer reports the session alone: a log without a session is
    deleted under the answer [false].  A second call answers [false] and
    changes nothing.  [deletePrivateChatSession] does the same on its
    tables. *)
Theorem deleteChatSession_twice (st : t) (code : string) :
  let r := deleteChatSession code st in
  let p := deletePrivateChatSession code st in
  (r.1 = true <-> is_Some (chatSessions st !! code)) /\
  chatSessions r.2 !! code = None /\
  chatMessages r.2 !! code = None /\
  deleteChatSession code r.2 = (false, r.2) /\
  (p.1 = true <-> is_Some (privateChatSessions st !! code)) /\
  privateChatSessions p.2 !! code = None /\
  privateChatMessages p.2 !! code = None /\
  deletePrivateChatSession code p.2 = (false, p.2).
Proof.
  simpl.
  split; [apply bool_decide_eq_true|].
  split; [apply lookup_delete_eq|].
  split; [apply lookup_delete_eq|].
  split.
  { unfold deleteChatSession, set_chat; simpl.
    by rewrite lookup_delete_eq, !delete_delete_eq. }
  split; [apply bool_decide_eq_true|].
  split; [apply lookup_delete_eq|].
  split; [apply lookup_delete_eq|].
  unfold deletePrivateChatSession, set_private; simpl.
  by rewrite lookup_delete_eq, !delete_delete_eq.
Qed.

(** When [getChatSession] meets a session whose [expiresAt] is before
    [now], it answers [undefined] and removes the session and the log of
    that code, so the history of the code is empty from then on; the other
    rooms and the shares are untouched. *)
Theorem getChatSession_expired (st : t) (code : string)
    (session : ChatSession.t) (now : Z) :
  chatSessions st !! code = Some session ->
  ChatSession.expiresAt session < now ->
  let r := getChatSession code now st in
  r.1 = None /\
  chatSessions r.2 !! code = None /\
  getChatMessages code r.2 = [] /\
  (forall other, other <> code ->
     chatSessions r.2 !! other = chatSessions st !! other /\
     chatMessages r.2 !! other = chatMessages st !! other) /\
  shares r.2 = shares st.
Proof.
  intros Hin Hexp. unfold getChatSession. rewrite Hin.
  destruct (Z.ltb_spec (ChatSession.expiresAt session) now); [|lia]. simpl.
  split; [reflexivity|].
  split; [apply lookup_delete_eq|].
  split.
  { unfold getChatMessages; simpl. by rewrite lookup_delete_eq. }
  split; [|reflexivity].
  intros other Hne. by rewrite !lookup_delete_ne.
Qed.

Lemma getChatSession_expired_witness :
  (getChatSession "AB12CD34" 1800001 Samples.roomStore).1 = None /\
  chatSessions (getChatSession "AB12CD34" 1800001 Samples.roomStore).2
    !! "AB12CD34" = None.
Proof.
  pose proof (getChatSession_expired Samples.roomStore "AB12CD34"
                (ChatSession.mk "id-3" "AB12CD34" 1 1800000 0) 1800001
                eq_refl ltac:(simpl; lia)) as Hw.
  split; apply Hw.
Defined.

(** [createShare] stores no empty password hash, no empty file name and no
    zero file size: each of them becomes [null]. *)
Theorem createShare_normalises (st : t) (insertShare : InsertShare.t)
    (id : string) (now : Z) :
  let share := (createShare insertShare id now st).1 in
  Share.password share <> Some "" /\
  Share.fileName share <> Some "" /\
  Share.fileSize share <> Some 0 /\
  (Js.truthy_string (Share.password share) = true <->
   is_Some (Share.password share)).
Proof.
  simpl.
  assert (Hstr : forall o, Js.string_or_null o <> Some ""
                           /\ (Js.truthy_string (Js.string_or_null o) = true
                               <-> is_Some (Js.string_or_null o))).
  { intros [s|]; unfold Js.string_or_null; simpl.
    - destruct (String.eqb_spec s "") as [->|Hne]; simpl.
      + split; [done|]. split; [done|]. by intros [? ?].
      + split; [congruence|].
        destruct (String.eqb_spec s ""); [done|]. by split.
    - split; [done|]. split; [done|]. by intros [? ?]. }
  split; [apply Hstr|]. split; [apply Hstr|]. split; [|apply Hstr].
  destruct (InsertShare.fileSize insertShare) as [n|]; simpl; [|done].
  destruct (Z.eqb_spec n 0); [done|congruence].
Qed.

End StoreFacts.

(** * The HTTP endpoints *)

Module EndpointFacts.
Import MemStorage Routes Endpoints.

(** ** [getExpirationDate] *)

(** Whatever the duration string, the expiry is 1 minute, 10 minutes, 1 hour
    or 1 day after [now]: always in the future and at most a day away.  A
    string that is none of ["1m"], ["10m"], ["1h"], ["1d"] gets what ["10m"]
    gets. *)
Theorem getExpirationDate_range (duration : string) (now : Z) :
  now + 60000 <= getExpirationDate duration now <= now + 86400000 /\
  (duration <> "1m" -> duration <> "1h" -> duration <> "1d" ->
   getExpirationDate duration now = getExpirationDate "10m" now).
Proof.
  unfold getExpirationDate.
  destruct (String.eqb_spec duration "1m");
    destruct (String.eqb_spec duration "10m");
    destruct (String.eqb_spec duration "1h");
    destruct (String.eqb_spec duration "1d"); simpl;
    (split; [lia | intros; congruence || reflexivity]).
Qed.

(** ** [GET /api/shares/:code] *)

(** A read writes to the shares table at its own code only: the rooms, the
    logs and the entries under other codes are as before. *)
Theorem getShare_frame `{Externals} (st : t) (code : string) (password : option string)
    (now : Z) :
  let st' := (getShare code password now st).2 in
  chatSessions st' = chatSessions st /\
  chatMessages st' = chatMessages st /\
  privateChatSessions st' = privateChatSessions st /\
  privateChatMessages st' = privateChatMessages st /\
  (forall other, other <> toUpperCase code ->
     shares st' !! other = shares st !! other).
Proof.
  unfold getShare, getShareByCode.
  destruct (shares st !! toUpperCase code) as [share|] eqn:Hin; [|done].
  destruct (Share.expiresAt share <? now).
  { simpl. do 4 (split; [reflexivity|]).
    intros other Hne. by rewrite lookup_delete_ne. }
  destruct (checkPassword share password); [done|].
  unfold updateShare. rewrite Hin.
  destruct (Share.oneTimeView share); simpl;
    do 4 (split; [reflexivity|]); intros other Hne.
  - by rewrite lookup_delete_ne, lookup_insert_ne.
  - by rewrite lookup_insert_ne.
Qed.

(** A read of a live entry that is not one-time-view and gets past the
    password check stores the entry again with [viewCount] one higher and
    everything else as it was, and answers with that count. *)
Theorem getShare_counts_view `{Externals} (st : t) (code : string)
    (password : option string) (now : Z) (share : Share.t) :
  shares st !! toUpperCase code = Some share ->
  now <= Share.expiresAt share ->
  Share.oneTimeView share = false ->
  checkPassword share password = None ->
  let counted :=
    PartialShare.apply share
      (PartialShare.only_viewCount (Share.viewCount share + 1)) in
  Share.viewCount counted = Share.viewCount share + 1 /\
  Share.content counted = Share.content share /\
  Share.expiresAt counted = Share.expiresAt share /\
  Share.password counted = Share.password share /\
  (getShare code password now st).2
  = set_shares (<[toUpperCase code := counted]> (shares st)) st /\
  exists data,
    (getShare code password now st).1 = ShareBody data /\
    content data = Share.content share /\
    viewCount data = Share.viewCount share + 1.
Proof.
  intros Hin Hlive Hmany Hgate. simpl.
  do 4 (split; [reflexivity|]).
  assert (Hor : Js.number_or (Some (Share.viewCount share)) 0
                = Share.viewCount share).
  { simpl. by destruct (Z.eqb_spec (Share.viewCount share) 0) as [->|]. }
  unfold getShare.
  rewrite (MemStorageFacts.getShareByCode_live _ _ _ _ Hin Hlive), Hgate.
  unfold updateShare. rewrite Hin, Hmany, Hor. simpl.
  split; [reflexivity|].
  eexists. split; [reflexivity|]. split; [reflexivity|]. simpl.
  destruct (Z.eqb_spec (Share.viewCount share + 1) 0); reflexivity.
Qed.

Lemma getShare_counts_view_witness :
  exists data,
    (@getShare Samples.externals "da1da1da" None 5
       (storage (server Samples.dayWorld))).1 = ShareBody data /\
    content data = "a day" /\
    viewCount data = 0 + 1.
Proof.
  apply (@getShare_counts_view Samples.externals
           (storage (server Samples.dayWorld)) "da1da1da" None 5
           (createShare Samples.dayInsert "id-4" 0 new).1);
    [reflexivity | simpl; lia | reflexivity | reflexivity].
Defined.

(** What [createShare] stored is read back through the endpoint by any
    spelling of the code whose upper case is the stored code, while the
    entry lives and the password check lets the read through: the answer
    carries the published content and the count 1. *)
Theorem createShare_then_getShare `{Externals} (st : t) (insertShare : InsertShare.t)
    (id : string) (now : Z) (code : string) (password : option string)
    (now' : Z) :
  toUpperCase code = InsertShare.code insertShare ->
  now' <= InsertShare.expiresAt insertShare ->
  checkPassword (createShare insertShare id now st).1 password = None ->
  exists data,
    (getShare code password now' (createShare insertShare id now st).2).1
    = ShareBody data /\
    content data = InsertShare.content insertShare /\
    viewCount data = 1.
Proof.
  intros Hcode Hlive Hgate.
  set (share := (createShare insertShare id now st).1) in *.
  assert (Hin : shares (createShare insertShare id now st).2 !! toUpperCase code
                = Some share).
  { rewrite Hcode. simpl. apply lookup_insert_eq. }
  unfold getShare.
  rewrite (MemStorageFacts.getShareByCode_live _ _ _ _ Hin Hlive), Hgate.
  unfold updateShare. rewrite Hin.
  eexists. split; [reflexivity|]. split; reflexivity.
Qed.

Lemma createShare_then_getShare_witness :
  exists data,
    (@getShare Samples.externals "ab12cd34" None 1000
       (createShare Samples.helloInsert "id-1" 0 new).2).1 = ShareBody data /\
    content data = "hello" /\
    viewCount data = 1.
Proof.
  apply (@createShare_then_getShare Samples.externals new Samples.helloInsert
           "id-1" 0 "ab12cd34" None 1000);
    [reflexivity | simpl; lia | reflexivity].
Defined.

(** ** [POST /api/shares/:code/unlock] *)

(** Unlocking a live entry never writes: whatever the answer, the storage is
    as it was, so no view is counted and no one-time entry is consumed.  The
    answer is "not protected" for an entry without password, and otherwise
    what [bcrypt.compare] says. *)
Theorem unlockShare_live `{Externals} (st : t) (code password : string) (now : Z)
    (share : Share.t) :
  shares st !! toUpperCase code = Some share ->
  now <= Share.expiresAt share ->
  unlockShare code password now st
  = (if Js.truthy_string (Share.password share)
     then if bcrypt_compare password (default "" (Share.password share))
          then UnlockSuccess else UnlockInvalid
     else UnlockNotProtected,
     st).
Proof.
  intros Hin Hlive. unfold unlockShare.
  rewrite (MemStorageFacts.getShareByCode_live _ _ _ _ Hin Hlive).
  destruct (Js.truthy_string (Share.password share)); simpl; [|reflexivity].
  by destruct (bcrypt_compare password (default "" (Share.password share))).
Qed.

Lemma unlockShare_live_witness :
  @unlockShare Samples.externals "0f0f0f0f" "secret" 1000 Samples.lockedStore
  = (UnlockSuccess, Samples.lockedStore).
Proof.
  apply (@unlockShare_live Samples.externals Samples.lockedStore "0f0f0f0f"
           "secret" 1000 (createShare Samples.lockedInsert "id-2" 0 new).1);
    [reflexivity | simpl; lia].
Defined.

(** A non-empty password that unlocks an entry also opens it: the read with
    that password answers with the content. *)
Theorem unlock_then_read `{Externals} (st : t) (code password : string) (now : Z) :
  (unlockShare code password now st).1 = UnlockSuccess ->
  password <> "" ->
  exists share data,
    shares st !! toUpperCase code = Some share /\
    (getShare code (Some password) now st).1 = ShareBody data /\
    content data = Share.content share.
Proof.
  intros Hok Hne. unfold unlockShare, getShare in *.
  unfold getShareByCode in *.
  destruct (shares st !! toUpperCase code) as [share|] eqn:Hin; [|done].
  destruct (Share.expiresAt share <? now); [done|].
  exists share. simpl in Hok.
  destruct (Js.truthy_string (Share.password share)) eqn:Hprot; simpl in Hok;
    [|done].
  destruct (bcrypt_compare password (default "" (Share.password share)))
    eqn:Hcmp; simpl in Hok; [|done].
  assert (Hgate : checkPassword share (Some password) = None).
  { unfold checkPassword. rewrite Hprot. simpl.
    destruct (String.eqb_spec password ""); [done|]. simpl. by rewrite Hcmp. }
  rewrite Hgate. unfold updateShare. rewrite Hin.
  eexists. split; [reflexivity|]. split; reflexivity.
Qed.

Lemma unlock_then_read_witness :
  exists share data,
    shares Samples.lockedStore !! "0F0F0F0F" = Some share /\
    (@getShare Samples.externals "0f0f0f0f" (Some "secret") 1000
       Samples.lockedStore).1 = ShareBody data /\
    content data = Share.content share.
Proof.
  apply (@unlock_then_read Samples.externals Samples.lockedStore "0f0f0f0f"
           "secret" 1000); [reflexivity | discriminate].
Defined.

(** ** [POST /api/private-chat] and [GET /api/private-chat/:code] *)

(** A room that was just created is found through any spelling of its code
    until two hours have passed: the answer carries the code,
    [expiresAt = now + 2h] and [activeUsers = 0], and the lookup writes
    nothing.  Later than that the answer is the 404. *)
Theorem createPrivateChat_then_get `{Externals} (st : t) (code id : string) (now : Z)
    (asked : string) (now' : Z) :
  toUpperCase asked = code ->
  let st' := (createPrivateChat code id now st).2 in
  (now' <= now + 7200000 ->
   getPrivateChat asked now' st'
   = (Some (mkPrivateChatInfo code (now + 7200000) 0), st')) /\
  (now + 7200000 < now' -> (getPrivateChat asked now' st').1 = None).
Proof.
  intros Hcode. simpl. unfold getPrivateChat, getPrivateChatSession.
  rewrite Hcode. simpl. rewrite lookup_insert_eq. simpl.
  split; intros Hnow.
  - destruct (Z.ltb_spec (now + 2 * 60 * 60 * 1000) now'); [lia|].
    reflexivity.
  - destruct (Z.ltb_spec (now + 2 * 60 * 60 * 1000) now'); [|lia].
    reflexivity.
Qed.

Lemma createPrivateChat_then_get_witness :
  @getPrivateChat Samples.externals "c0ffee00" 7200000
    (createPrivateChat "C0FFEE00" "s-1" 0 new).2
  = (Some (mkPrivateChatInfo "C0FFEE00" (0 + 7200000) 0),
     (createPrivateChat "C0FFEE00" "s-1" 0 new).2).
Proof.
  apply (@createPrivateChat_then_get Samples.externals new "C0FFEE00" "s-1" 0
           "c0ffee00" 7200000 eq_refl).
  lia.
Defined.

End EndpointFacts.

(** * The broker's maps in every reachable state *)

Module BrokerInvariants.
Import MemStorage Routes Invariants.

(** ** The two maps after each handler *)

Lemma addToRoom_lookup (code : string) (w : WebSocket)
    (rooms : gmap string (gset WebSocket)) (k : string) :
  addToRoom code w rooms !! k
  = if decide (k = code)
    then Some (default ∅ (rooms !! code) ∪ {[w]})
    else rooms !! k.
Proof.
  unfold addToRoom. destruct (decide (k = code)) as [->|Hne].
  - rewrite lookup_alter_eq.
    destruct (rooms !! code) as [r|] eqn:Hr; simpl.
    + by rewrite Hr.
    + by rewrite lookup_insert_eq.
  - rewrite lookup_alter_ne by done.
    destruct (rooms !! code); [done|]. by rewrite lookup_insert_ne.
Qed.

(** A handler of [ws.on('message')] either leaves the two maps alone or
    registers the sender for one room and adds it to the set of that room. *)
Lemma onMessage_maps `{Externals} (w : WebSocket) (m : ClientMessage)
    (id : string) (now : Z) (isOpen : WebSocket -> bool) (sv : Server) :
  let sv' := (onMessage w m id now isOpen sv).1 in
  (clients sv' = clients sv /\ shareRooms sv' = shareRooms sv) \/
  (exists code user,
     clients sv' = <[w := mkClientConnection w code user]> (clients sv) /\
     shareRooms sv' = addToRoom code w (shareRooms sv)).
Proof.
  destruct m as [code user|code user|content|content|]; simpl.
  - unfold onJoin.
    destruct (getShareByCode (toUpperCase code) now (storage sv))
      as [[share|] st1]; [|by left].
    destruct (getChatSession (toUpperCase code) now st1) as [[found|] st2].
    + destruct (updateChatSession _ _ st2) as [session st3].
      right. by eexists _, _.
    + destruct (createChatSession _ id now st2) as [created st3].
      right. by eexists _, _.
  - unfold onJoinPrivateChat.
    destruct (getPrivateChatSession (toUpperCase code) now (storage sv))
      as [[session|] st1]; [|by left].
    right. by eexists _, _.
  - unfold onChatMessage. destruct (clients sv !! w); by left.
  - unfold onPrivateMessage. destruct (clients sv !! w); by left.
  - by left.
Qed.

Lemma onClose_maps (w : WebSocket) (isOpen : WebSocket -> bool) (sv : Server) :
  let sv' := (onClose w isOpen sv).1 in
  clients sv' = delete w (clients sv) /\
  shareRooms sv'
  = match clients sv !! w with
    | None => shareRooms sv
    | Some client =>
        match shareRooms sv !! shareCode client with
        | None => shareRooms sv
        | Some roomClients =>
            if bool_decide (size (roomClients ∖ {[w]}) = 0%nat)
            then delete (shareCode client) (shareRooms sv)
            else <[shareCode client := roomClients ∖ {[w]}]> (shareRooms sv)
        end
    end.
Proof.
  unfold onClose.
  destruct (clients sv !! w) as [client|] eqn:Hw; simpl.
  - destruct (shareRooms sv !! shareCode client) as [room|]; [|done].
    by case_bool_decide.
  - by rewrite delete_id.
Qed.

(** ** Each event keeps the maps consistent *)

Lemma consistent_same (wd wd' : World) :
  clients (server wd') = clients (server wd) ->
  shareRooms (server wd') = shareRooms (server wd) ->
  open wd ⊆ open wd' ->
  consistent wd -> consistent wd'.
Proof.
  intros Hc Hr Ho (Hmem & Hopen & Hne).
  unfold consistent, registeredAreMembers, registeredAreOpen, noEmptyRoom.
  rewrite Hc, Hr. split; [exact Hmem|]. split; [|exact Hne].
  intros w Hw. apply Ho. by apply Hopen.
Qed.

Lemma consistent_join (wd wd' : World) (w : WebSocket) (code user : string) :
  w ∈ open wd ->
  clients (server wd')
  = <[w := mkClientConnection w code user]> (clients (server wd)) ->
  shareRooms (server wd') = addToRoom code w (shareRooms (server wd)) ->
  open wd' = open wd ->
  consistent wd -> consistent wd'.
Proof.
  intros Hw Hc Hr Ho (Hmem & Hopen & Hne).
  unfold consistent, registeredAreMembers, registeredAreOpen, noEmptyRoom.
  rewrite Hc, Hr, Ho. split; [|split].
  - intros w' c Hc'. destruct (decide (w = w')) as [<-|Hww].
    + rewrite lookup_insert_eq in Hc'. inversion Hc'; subst c; simpl.
      split; [reflexivity|]. rewrite addToRoom_lookup.
      rewrite decide_True by done. eexists. split; [reflexivity|]. set_solver.
    + rewrite lookup_insert_ne in Hc' by done.
      destruct (Hmem w' c Hc') as (Hws & room & Hroom & Hin).
      split; [exact Hws|]. rewrite addToRoom_lookup.
      destruct (decide (shareCode c = code)) as [Heq|Hcode].
      * eexists. split; [reflexivity|]. rewrite <- Heq, Hroom. set_solver.
      * by exists room.
  - intros w' Hw'. destruct (decide (w = w')) as [<-|Hww]; [done|].
    rewrite lookup_insert_ne in Hw' by done. by apply Hopen.
  - intros k room Hroom. rewrite addToRoom_lookup in Hroom.
    destruct (decide (k = code)).
    + inversion Hroom. set_solver.
    + by eapply Hne.
Qed.

Lemma consistent_close (wd : World) (w : WebSocket)
    (isOpen : WebSocket -> bool) :
  consistent wd ->
  consistent (mkWorld (onClose w isOpen (server wd)).1 (open wd ∖ {[w]})).
Proof.
  intros (Hmem & Hopen & Hne).
  destruct (onClose_maps w isOpen (server wd)) as [Hc Hr].
  unfold consistent, registeredAreMembers, registeredAreOpen, noEmptyRoom.
  simpl. rewrite Hc, Hr. clear Hc Hr.
  assert (Hother : forall w' c, delete w (clients (server wd)) !! w' = Some c ->
                     w' <> w /\ clients (server wd) !! w' = Some c).
  { intros w' c Hc'. destruct (decide (w = w')) as [<-|Hww].
    - by rewrite lookup_delete_eq in Hc'.
    - by rewrite lookup_delete_ne in Hc'. }
  split; [|split].
  - intros w' c Hc'. apply Hother in Hc' as [Hww Hc'].
    destruct (Hmem w' c Hc') as (Hws & room & Hroom & Hin).
    split; [exact Hws|].
    destruct (clients (server wd) !! w) as [client|]; [|by exists room].
    destruct (shareRooms (server wd) !! shareCode client) as [room0|] eqn:Hr0;
      [|by exists room].
    destruct (decide (shareCode c = shareCode client)) as [Heq|Hcode].
    + rewrite Heq, Hr0 in Hroom. inversion Hroom; subst room0.
      assert (Hin' : w' ∈ room ∖ {[w]}) by set_solver.
      case_bool_decide as Hsize.
      * apply size_empty_inv in Hsize. set_solver.
      * exists (room ∖ {[w]}). rewrite Heq, lookup_insert_eq. done.
    + case_bool_decide.
      * exists room. by rewrite lookup_delete_ne.
      * exists room. by rewrite lookup_insert_ne.
  - intros w' [c Hc']. apply Hother in Hc' as [Hww Hc'].
    assert (w' ∈ open wd) by (apply Hopen; by exists c). set_solver.
  - intros k room Hroom.
    destruct (clients (server wd) !! w) as [client|]; [|by eapply Hne].
    destruct (shareRooms (server wd) !! shareCode client) as [room0|];
      [|by eapply Hne].
    case_bool_decide as Hsize.
    + destruct (decide (k = shareCode client)) as [->|Hk].
      * by rewrite lookup_delete_eq in Hroom.
      * rewrite lookup_delete_ne in Hroom by done. by eapply Hne.
    + destruct (decide (k = shareCode client)) as [->|Hk].
      * rewrite lookup_insert_eq in Hroom. inversion Hroom; subst room.
        intros Hempty. apply Hsize. rewrite Hempty. apply size_empty.
      * rewrite lookup_insert_ne in Hroom by done. by eapply Hne.
Qed.

Lemma step_consistent `{Externals} (wd : World) (e : Event) :
  consistent wd -> consistent (step wd e).1.
Proof.
  intros Hwd. destruct e as [w|w m id now|w|code id now]; simpl.
  - apply (consistent_same wd); [done|done|simpl; set_solver|exact Hwd].
  - unfold isOpenIn at 1. case_bool_decide as Hw; [|exact Hwd].
    pose proof (onMessage_maps w m id now (isOpenIn (open wd)) (server wd))
      as Hmaps.
    destruct (onMessage w m id now (isOpenIn (open wd)) (server wd))
      as [sv sent]. simpl in *.
    destruct Hmaps as [[Hc Hr]|(code & user & Hc & Hr)].
    + by apply (consistent_same wd).
    + by apply (consistent_join wd _ w code user).
  - unfold isOpenIn at 1. case_bool_decide as Hw; [|exact Hwd].
    pose proof (consistent_close wd w (isOpenIn (open wd ∖ {[w]})) Hwd) as Hc.
    by destruct (onClose w (isOpenIn (open wd ∖ {[w]})) (server wd)).
  - by apply (consistent_same wd).
Qed.

Lemma run_consistent `{Externals} (es : list Event) :
  forall wd, consistent wd -> consistent (run wd es).
Proof.
  induction es as [|e es IH]; intros wd Hwd; [exact Hwd|].
  apply (IH (step wd e).1). by apply step_consistent.
Qed.

(** Whatever events the server has seen since it started, every registered
    connection is open and is a member of the set of the room it is
    registered for, and no stored set is empty. *)
Theorem reachable_consistent `{Externals} (es : list Event) :
  let wd := run start es in
  registeredAreMembers (server wd) /\
  registeredAreOpen wd /\
  noEmptyRoom (server wd).
Proof.
  apply run_consistent. split; [|split].
  - intros w c Hc. simpl in Hc. by rewrite lookup_empty in Hc.
  - intros w [c Hc]. simpl in Hc. by rewrite lookup_empty in Hc.
  - intros k room Hroom. simpl in Hroom. by rewrite lookup_empty in Hroom.
Qed.

End BrokerInvariants.

(** * What the members of a room see *)

Module BrokerFlows.
Import MemStorage Routes.

(** ** Delivery *)

Lemma elem_of_broadcast (isOpen : WebSocket -> bool) (roomClients : gset WebSocket)
    (m : ServerMessage) (w : WebSocket) (m' : ServerMessage) :
  (w, m') ∈ broadcast isOpen roomClients m
  <-> m' = m /\ w ∈ roomClients /\ isOpen w = true.
Proof.
  unfold broadcast. rewrite list_elem_of_fmap. split.
  - intros (c & Heq & Hc). inversion Heq; subst.
    apply list_elem_of_filter in Hc as [Hopen Hc].
    by rewrite elem_of_elements in Hc.
  - intros (-> & Hw & Hopen). exists w. split; [done|].
    apply list_elem_of_filter. by rewrite elem_of_elements.
Qed.

Lemma NoDup_broadcast (isOpen : WebSocket -> bool) (roomClients : gset WebSocket)
    (m : ServerMessage) :
  NoDup (broadcast isOpen roomClients m).
Proof.
  unfold broadcast. apply NoDup_fmap_2.
  - intros a b Heq. by inversion Heq.
  - apply NoDup_filter, NoDup_elements.
Qed.

(** A chat message from a registered connection goes out to the open
    members of the set of its room and to nobody else, once each, and it is
    the message that was stored. *)
Theorem onChatMessage_delivery (w : WebSocket) (content id : string) (now : Z)
    (isOpen : WebSocket -> bool) (sv : Server) (client : ClientConnection)
    (roomClients : gset WebSocket) :
  clients sv !! w = Some client ->
  shareRooms sv !! shareCode client = Some roomClients ->
  let stored :=
    Log.stamp (Samples.hi (shareCode client) (userId client) content, id, now) in
  let r := onChatMessage w content id now isOpen sv in
  getChatMessages (shareCode client) (storage r.1)
  = getChatMessages (shareCode client) (storage sv) ++ [stored] /\
  NoDup r.2 /\
  (forall w' m,
     (w', m) ∈ r.2
     <-> m = NewMessage (viewChatMessage stored)
         /\ w' ∈ roomClients /\ isOpen w' = true).
Proof.
  intros Hclient Hroom. unfold onChatMessage. rewrite Hclient, Hroom. simpl.
  split; [|split].
  - unfold getChatMessages; simpl. by rewrite lookup_insert_eq.
  - apply NoDup_broadcast.
  - intros w' m. apply elem_of_broadcast.
Qed.

(** ** A join, seen from the joiner *)

(** A message stored for a room is in the history sent to whoever joins
    that room afterwards, as its last entry, as long as the entry and the
    session of the room are still live at the join. *)
Theorem message_then_join `{Externals} (w : WebSocket) (content id : string)
    (now : Z) (isOpen : WebSocket -> bool) (sv : Server)
    (client : ClientConnection) (w' : WebSocket) (code user id' : string)
    (now' : Z) (isOpen' : WebSocket -> bool) (share : Share.t)
    (session : ChatSession.t) :
  clients sv !! w = Some client ->
  shareCode client = toUpperCase code ->
  shares (storage sv) !! toUpperCase code = Some share ->
  now' <= Share.expiresAt share ->
  chatSessions (storage sv) !! toUpperCase code = Some session ->
  now' <= ChatSession.expiresAt session ->
  let stored :=
    Log.stamp (Samples.hi (shareCode client) (userId client) content, id, now) in
  let sv1 := (onChatMessage w content id now isOpen sv).1 in
  last (onJoin w' code user id' now' isOpen' sv1).2
  = Some (w', ChatHistory
                (viewChatMessage <$>
                   (getChatMessages (toUpperCase code) (storage sv) ++ [stored]))).
Proof.
  intros Hclient Hcode Hshare Hlive Hsession Hslive. simpl.
  unfold onChatMessage. rewrite Hclient. simpl.
  unfold onJoin. simpl.
  unfold getShareByCode; simpl. rewrite Hshare.
  destruct (Z.ltb_spec (Share.expiresAt share) now'); [lia|].
  unfold getChatSession; simpl. rewrite Hsession.
  destruct (Z.ltb_spec (ChatSession.expiresAt session) now'); [lia|].
  unfold updateChatSession; simpl. rewrite Hsession.
  simpl. rewrite last_snoc. do 3 f_equal.
  unfold getChatMessages; simpl. rewrite Hcode. by rewrite lookup_insert_eq.
Qed.

(** A join that finds the session of the room run out starts the room
    anew: the old log is deleted, the joiner is sent an empty history, and
    the new session runs for 30 minutes from the join. *)
Theorem join_after_session_expiry `{Externals} (w : WebSocket)
    (code user id : string) (now : Z) (isOpen : WebSocket -> bool)
    (sv : Server) (share : Share.t) (session : ChatSession.t) :
  shares (storage sv) !! toUpperCase code = Some share ->
  now <= Share.expiresAt share ->
  chatSessions (storage sv) !! toUpperCase code = Some session ->
  ChatSession.expiresAt session < now ->
  let r := onJoin w code user id now isOpen sv in
  last r.2 = Some (w, ChatHistory []) /\
  chatMessages (storage r.1) !! toUpperCase code = None /\
  ChatSession.expiresAt <$> chatSessions (storage r.1) !! toUpperCase code
  = Some (now + 1800000).
Proof.
  intros Hshare Hlive Hsession Hexp. simpl. unfold onJoin.
  rewrite (MemStorageFacts.getShareByCode_live _ _ _ _ Hshare Hlive).
  unfold getChatSession. rewrite Hsession.
  destruct (Z.ltb_spec (ChatSession.expiresAt session) now); [|lia].
  simpl. rewrite last_snoc. unfold getChatMessages; simpl.
  rewrite !lookup_delete_eq, lookup_insert_eq. simpl.
  split; [reflexivity|]. split; [reflexivity|]. f_equal.
Qed.

(** After the read that consumes a one-time-view entry, nobody can join
    the room of its code: the join is answered with "Share not found" and
    registers nothing. *)
Theorem one_time_read_then_join `{Externals} (st : t) (code : string)
    (password : option string) (now : Z) (share : Share.t) (w : WebSocket)
    (user id : string) (now' : Z) (isOpen : WebSocket -> bool)
    (registered : gmap WebSocket ClientConnection)
    (rooms : gmap string (gset WebSocket)) :
  shares st !! toUpperCase code = Some share ->
  now <= Share.expiresAt share ->
  Share.oneTimeView share = true ->
  checkPassword share password = None ->
  let st' := (getShare code password now st).2 in
  onJoin w code user id now' isOpen (mkServer st' registered rooms)
  = (mkServer st' registered rooms, [(w, Error "Share not found")]).
Proof.
  intros Hin Hlive Honce Hgate. simpl.
  assert (Hout : shares (getShare code password now st).2 !! toUpperCase code
                 = None).
  { unfold getShare.
    rewrite (MemStorageFacts.getShareByCode_live _ _ _ _ Hin Hlive), Hgate.
    unfold updateShare. rewrite Hin, Honce. simpl. apply lookup_delete_eq. }
  unfold onJoin. simpl.
  by rewrite (MemStorageFacts.getShareByCode_absent _ _ _ Hout).
Qed.

(** ** A connection that joins a second room *)

(** A connection that is in the set of one room and joins another is not
    taken out of the first, neither by the join nor by its disconnect: the
    disconnect unregisters it and cleans only the room joined last. *)
Theorem rejoin_keeps_old_membership `{Externals} (w : WebSocket)
    (code user id : string) (now : Z) (isOpen isOpen' : WebSocket -> bool)
    (sv : Server) (old : string) (roomClients : gset WebSocket)
    (share : Share.t) :
  shareRooms sv !! old = Some roomClients ->
  w ∈ roomClients ->
  toUpperCase code <> old ->
  shares (storage sv) !! toUpperCase code = Some share ->
  now <= Share.expiresAt share ->
  let joined := (onJoin w code user id now isOpen sv).1 in
  let closed := (onClose w isOpen' joined).1 in
  shareRooms joined !! old = Some roomClients /\
  clients closed !! w = None /\
  shareRooms closed !! old = Some roomClients.
Proof.
  intros Hold Hw Hne Hshare Hlive. simpl.
  assert (Hmaps :
    clients (onJoin w code user id now isOpen sv).1
    = <[w := mkClientConnection w (toUpperCase code) user]> (clients sv) /\
    shareRooms (onJoin w code user id now isOpen sv).1
    = addToRoom (toUpperCase code) w (shareRooms sv)).
  { unfold onJoin.
    rewrite (MemStorageFacts.getShareByCode_live _ _ _ _ Hshare Hlive).
    destruct (getChatSession (toUpperCase code) now (storage sv))
      as [[found|] st2].
    - by destruct (updateChatSession _ _ st2).
    - by destruct (createChatSession _ id now st2). }
  destruct Hmaps as [Hc Hr].
  assert (Hjoined : shareRooms (onJoin w code user id now isOpen sv).1 !! old
                    = Some roomClients).
  { rewrite Hr, BrokerInvariants.addToRoom_lookup.
    by rewrite decide_False by done. }
  split; [exact Hjoined|].
  destruct (BrokerInvariants.onClose_maps w isOpen'
              (onJoin w code user id now isOpen sv).1) as [Hc' Hr'].
  split; [rewrite Hc'; apply lookup_delete_eq|].
  assert (Hnew : shareRooms (onJoin w code user id now isOpen sv).1
                   !! toUpperCase code
                 = Some (default ∅ (shareRooms sv !! toUpperCase code) ∪ {[w]})).
  { rewrite Hr, BrokerInvariants.addToRoom_lookup. by rewrite decide_True. }
  rewrite Hr', Hc, lookup_insert_eq. simpl. rewrite Hnew.
  case_bool_decide.
  - rewrite lookup_delete_ne by done. exact Hjoined.
  - rewrite lookup_insert_ne by done. exact Hjoined.
Qed.

(** ** The theorems above, at work *)

Lemma onChatMessage_delivery_witness :
  getChatMessages "AB12CD34"
    (storage (onChatMessage 2 "hello back" "m-2" 40 Scenarios.allOpen
                Scenarios.chatting).1)
  = getChatMessages "AB12CD34" (storage Scenarios.chatting)
    ++ [ChatMessage.mk "m-2" "AB12CD34" "hello back" "B" (Some 40)].
Proof.
  pose proof (onChatMessage_delivery 2 "hello back" "m-2" 40 Scenarios.allOpen
                Scenarios.chatting (mkClientConnection 2 "AB12CD34" "B")
                {[1%positive; 2%positive]}) as Hw.
  apply Hw; vm_compute; reflexivity.
Defined.

Lemma message_then_join_witness :
  last (@onJoin Samples.externals 3 "ab12cd34" "C" "s-3" 50 Scenarios.allOpen
          (onChatMessage 2 "hello back" "m-2" 40 Scenarios.allOpen
             Scenarios.chatting).1).2
  = Some (3%positive,
          ChatHistory
            [mkMessageView "m-1" "hi" "A" (Some 30);
             mkMessageView "m-2" "hello back" "B" (Some 40)]).
Proof.
  apply (@message_then_join Samples.externals 2 "hello back" "m-2" 40
           Scenarios.allOpen Scenarios.chatting
           (mkClientConnection 2 "AB12CD34" "B") 3 "ab12cd34" "C" "s-3" 50
           Scenarios.allOpen
           (createShare Samples.helloInsert "id-1" 0 new).1
           (ChatSession.mk "s-1" "AB12CD34" 2 1800010 10)).
  - vm_compute; reflexivity.
  - reflexivity.
  - vm_compute; reflexivity.
  - simpl. lia.
  - vm_compute; reflexivity.
  - simpl. lia.
Defined.

Lemma join_after_session_expiry_witness :
  last (@onJoin Samples.externals 2 "da1da1da" "B" "s-2" 1860000
          Scenarios.allOpen Scenarios.dayRoom).2
  = Some (2%positive, ChatHistory []).
Proof.
  pose proof (@join_after_session_expiry Samples.externals 2 "da1da1da" "B"
                "s-2" 1860000 Scenarios.allOpen Scenarios.dayRoom
                (createShare Samples.dayInsert "id-4" 0 new).1
                (ChatSession.mk "s-1" "DA1DA1DA" 1 1800000 0)) as Hw.
  apply Hw; [vm_compute; reflexivity | simpl; lia
            | vm_compute; reflexivity | simpl; lia].
Defined.

Lemma one_time_read_then_join_witness :
  @onJoin Samples.externals 1 "ab12cd34" "A" "s-1" 2000 Scenarios.allOpen
    (mkServer
       (@getShare Samples.externals "ab12cd34" None 1000 Samples.helloStore).2
       ∅ ∅)
  = (mkServer
       (@getShare Samples.externals "ab12cd34" None 1000 Samples.helloStore).2
       ∅ ∅,
     [(1%positive, Error "Share not found")]).
Proof.
  apply (@one_time_read_then_join Samples.externals Samples.helloStore
           "ab12cd34" None 1000
           (createShare Samples.helloInsert "id-1" 0 new).1
           1 "A" "s-1" 2000 Scenarios.allOpen ∅ ∅).
  - reflexivity.
  - simpl. lia.
  - reflexivity.
  - reflexivity.
Defined.

Lemma rejoin_keeps_old_membership_witness :
  shareRooms
    (onClose 1 Scenarios.allOpen
       (@onJoin Samples.externals 1 "da1da1da" "A" "s-2" 20 Scenarios.allOpen
          Scenarios.inHello).1).1 !! "AB12CD34"
  = Some {[1%positive]}.
Proof.
  pose proof (@rejoin_keeps_old_membership Samples.externals 1 "da1da1da" "A"
                "s-2" 20 Scenarios.allOpen Scenarios.allOpen Scenarios.inHello
                "AB12CD34" {[1%positive]}
                (createShare Samples.dayInsert "id-4" 0 new).1) as Hw.
  apply Hw.
  - vm_compute; reflexivity.
  - set_solver.
  - discriminate.
  - vm_compute; reflexivity.
  - simpl. lia.
Defined.

End BrokerFlows.

(** * Codes and labels *)

Module CodeFacts.
Import Routes Endpoints.

Lemma upperAscii_idempotent (c : ascii) :
  Samples.upperAscii (Samples.upperAscii c) = Samples.upperAscii c.
Proof.
  destruct c as [[] [] [] [] [] [] [] []]; reflexivity.
Qed.

Lemma upper_idempotent (s : string) :
  Samples.upper (Samples.upper s) = Samples.upper s.
Proof.
  induction s as [|c s IH]; simpl; [reflexivity|].
  by rewrite upperAscii_idempotent, IH.
Qed.

Lemma upper_length (s : string) :
  String.length (Samples.upper s) = String.length s.
Proof. induction s as [|c s IH]; simpl; [reflexivity|]. by rewrite IH. Qed.

Lemma hex_length (bytes : list Byte.byte) :
  String.length (hex bytes) = (2 * length bytes)%nat.
Proof. induction bytes as [|b bytes IH]; simpl; [reflexivity|]. rewrite IH. lia. Qed.

Lemma small_cases (n : N) :
  (n < 16)%N ->
  n = 0%N \/ n = 1%N \/ n = 2%N \/ n = 3%N \/ n = 4%N \/ n = 5%N \/
  n = 6%N \/ n = 7%N \/ n = 8%N \/ n = 9%N \/ n = 10%N \/ n = 11%N \/
  n = 12%N \/ n = 13%N \/ n = 14%N \/ n = 15%N.
Proof. lia. Qed.

Lemma upper_hexDigit (n : N) :
  (n < 16)%N -> Samples.upperAscii (hexDigit n) ∈ upperHexDigits.
Proof.
  intros Hn. apply small_cases in Hn.
  repeat (destruct Hn as [->|Hn]); try subst n;
    vm_compute; repeat (first [by left | right]).
Qed.

Lemma upper_hexDigit_inj (n m : N) :
  (n < 16)%N -> (m < 16)%N ->
  Samples.upperAscii (hexDigit n) = Samples.upperAscii (hexDigit m) -> n = m.
Proof.
  intros Hn Hm. apply small_cases in Hn. apply small_cases in Hm.
  repeat (destruct Hn as [->|Hn]); try subst n;
    repeat (destruct Hm as [->|Hm]); try subst m;
    vm_compute; intros Heq; first [reflexivity | discriminate Heq].
Qed.

Lemma byte_digits (b : Byte.byte) :
  (Byte.to_N b / 16 < 16)%N /\ (Byte.to_N b mod 16 < 16)%N.
Proof.
  pose proof (Byte.to_N_bounded b) as Hb. split.
  - apply N.Div0.div_lt_upper_bound. lia.
  - apply N.mod_lt. lia.
Qed.

Lemma byte_to_N_inj (a b : Byte.byte) : Byte.to_N a = Byte.to_N b -> a = b.
Proof.
  intros Heq. pose proof (Byte.of_to_N a) as Ha.
  rewrite Heq, Byte.of_to_N in Ha. by inversion Ha.
Qed.

Lemma upper_hex_digits (bytes : list Byte.byte) :
  Forall (fun c => c ∈ upperHexDigits)
         (list_ascii_of_string (Samples.upper (hex bytes))).
Proof.
  induction bytes as [|b bytes IH]; simpl; [constructor|].
  destruct (byte_digits b) as [Hhi Hlo].
  constructor; [by apply upper_hexDigit|].
  constructor; [by apply upper_hexDigit|exact IH].
Qed.

Lemma upper_hex_inj (xs : list Byte.byte) :
  forall ys, Samples.upper (hex xs) = Samples.upper (hex ys) -> xs = ys.
Proof.
  induction xs as [|x xs IH]; intros [|y ys] Heq; simpl in Heq;
    try discriminate Heq; [reflexivity|].
  inversion Heq as [[Hhi Hlo Hrest]].
  destruct (byte_digits x) as [Hx1 Hx2]. destruct (byte_digits y) as [Hy1 Hy2].
  apply upper_hexDigit_inj in Hhi; [|done|done].
  apply upper_hexDigit_inj in Hlo; [|done|done].
  f_equal; [|by apply IH].
  apply byte_to_N_inj.
  rewrite (N.div_mod (Byte.to_N x) 16), (N.div_mod (Byte.to_N y) 16) by lia.
  by rewrite Hhi, Hlo.
Qed.

(** Where [toUpperCase] is upper-casing of the ASCII letters, the code made
    from four random bytes has eight characters, all of them among
    [0123456789ABCDEF], and upper-casing it again gives the same code -- so
    the handlers, which upper-case the code they are asked for, look up the
    very key the entry was stored under. *)
Theorem generateCode_shape `{Externals} (bytes : list Byte.byte) :
  length bytes = 4%nat ->
  (forall s, toUpperCase s = Samples.upper s) ->
  String.length (generateCode bytes) = 8%nat /\
  Forall (fun c => c ∈ upperHexDigits)
         (list_ascii_of_string (generateCode bytes)) /\
  toUpperCase (generateCode bytes) = generateCode bytes.
Proof.
  intros Hlen Hupper. unfold generateCode. rewrite !Hupper.
  split; [|split].
  - rewrite upper_length, hex_length, Hlen. reflexivity.
  - apply upper_hex_digits.
  - apply upper_idempotent.
Qed.

Lemma generateCode_shape_witness :
  String.length
    (@generateCode Samples.externals [Byte.xab; Byte.x12; Byte.xcd; Byte.x34])
  = 8%nat /\
  Forall (fun c => c ∈ upperHexDigits)
    (list_ascii_of_string
       (@generateCode Samples.externals
          [Byte.xab; Byte.x12; Byte.xcd; Byte.x34])) /\
  Samples.upper
    (@generateCode Samples.externals [Byte.xab; Byte.x12; Byte.xcd; Byte.x34])
  = @generateCode Samples.externals [Byte.xab; Byte.x12; Byte.xcd; Byte.x34].
Proof.
  apply (@generateCode_shape Samples.externals
           [Byte.xab; Byte.x12; Byte.xcd; Byte.x34]); reflexivity.
Defined.

(** Where [toUpperCase] is upper-casing of the ASCII letters, different
    random bytes give different codes: upper-casing merges nothing. *)
Theorem generateCode_injective `{Externals} (xs ys : list Byte.byte) :
  (forall s, toUpperCase s = Samples.upper s) ->
  generateCode xs = generateCode ys ->
  xs = ys.
Proof.
  intros Hupper. unfold generateCode. rewrite !Hupper. apply upper_hex_inj.
Qed.

Lemma generateCode_injective_witness :
  [Byte.xab; Byte.x12; Byte.xcd; Byte.x34]
  = [Byte.xab; Byte.x12; Byte.xcd; Byte.x34].
Proof.
  apply (@generateCode_injective Samples.externals
           [Byte.xab; Byte.x12; Byte.xcd; Byte.x34]
           [Byte.xab; Byte.x12; Byte.xcd; Byte.x34]); reflexivity.
Defined.

Example generateCode_sample :
  @generateCode Samples.externals [Byte.xab; Byte.x12; Byte.xcd; Byte.x34]
  = "AB12CD34".
Proof. reflexivity. Qed.

(** ** [getTimeRemaining] *)

(** The label counts whole units and names the largest one that is not
    zero, dropping the rest: days from one day on, hours from one hour on,
    minutes below that -- so the last minute reads ["0 minute"] -- and
    ["Expired"] once [expiresAt] is reached. *)
Theorem getTimeRemaining_units (expiresAt now : Z) :
  let d := expiresAt - now in
  (d <= 0 -> Client.getTimeRemaining expiresAt now = "Expired") /\
  (0 < d < 60000 -> Client.getTimeRemaining expiresAt now = "0 minute") /\
  (60000 <= d < 3600000 ->
   Client.getTimeRemaining expiresAt now
   = pretty (d / 60000) +:+ " minute" +:+ Client.plural (d / 60000)) /\
  (3600000 <= d < 86400000 ->
   Client.getTimeRemaining expiresAt now
   = pretty (d / 3600000) +:+ " hour" +:+ Client.plural (d / 3600000)) /\
  (86400000 <= d ->
   Client.getTimeRemaining expiresAt now
   = pretty (d / 86400000) +:+ " day" +:+ Client.plural (d / 86400000)).
Proof.
  simpl. unfold Client.getTimeRemaining.
  set (d := expiresAt - now).
  change (1000 * 60) with 60000.
  assert (Hh : d / 60000 / 60 = d / 3600000)
    by (rewrite Z.div_div by lia; reflexivity).
  assert (Hd : d / 60000 / 60 / 24 = d / 86400000)
    by (rewrite !Z.div_div by lia; reflexivity).
  rewrite Hd, Hh.
  split; [|split; [|split; [|split]]]; intros Hrange.
  - destruct (Z.leb_spec d 0); [reflexivity|lia].
  - destruct (Z.leb_spec d 0); [lia|].
    assert (d / 86400000 = 0) as -> by (apply Z.div_small; lia).
    assert (d / 3600000 = 0) as -> by (apply Z.div_small; lia).
    assert (d / 60000 = 0) as -> by (apply Z.div_small; lia).
    reflexivity.
  - destruct (Z.leb_spec d 0); [lia|].
    assert (d / 86400000 = 0) as -> by (apply Z.div_small; lia).
    assert (d / 3600000 = 0) as -> by (apply Z.div_small; lia).
    reflexivity.
  - destruct (Z.leb_spec d 0); [lia|].
    assert (d / 86400000 = 0) as -> by (apply Z.div_small; lia).
    assert (0 < d / 3600000) by (apply Z.div_str_pos; lia).
    simpl. destruct (Z.ltb_spec 0 (d / 3600000)); [reflexivity|lia].
  - destruct (Z.leb_spec d 0); [lia|].
    assert (0 < d / 86400000) by (apply Z.div_str_pos; lia).
    destruct (Z.ltb_spec 0 (d / 86400000)); [reflexivity|lia].
Qed.

Example getTimeRemaining_samples :
  Client.getTimeRemaining 86400000 0 = "1 day" /\
  Client.getTimeRemaining 86400000 1 = "23 hours" /\
  Client.getTimeRemaining 600000 0 = "10 minutes" /\
  Client.getTimeRemaining 60000 1 = "0 minute".
Proof. repeat split; reflexivity. Qed.

End CodeFacts.

(** * The join and close lemmas, at work *)

Module BrokerWitnesses.
Import MemStorage Routes.

Lemma onClose_last_member_witness :
  shareRooms (onClose 1 Scenarios.allOpen Scenarios.dayRoom).1 !! "DA1DA1DA"
  = None /\
  chatSessions (storage (onClose 1 Scenarios.allOpen Scenarios.dayRoom).1)
    !! "DA1DA1DA" = None /\
  chatMessages (storage (onClose 1 Scenarios.allOpen Scenarios.dayRoom).1)
    !! "DA1DA1DA" = None.
Proof.
  apply (BrokerFacts.onClose_last_member 1 Scenarios.allOpen Scenarios.dayRoom
           (mkClientConnection 1 "DA1DA1DA" "A") {[1%positive]});
    vm_compute; reflexivity.
Defined.

Lemma onClose_others_remain_witness :
  shareRooms (onClose 1 Scenarios.allOpen Scenarios.chatting).1 !! "AB12CD34"
  = Some ({[1%positive; 2%positive]} ∖ {[1%positive]}) /\
  ChatSession.activeUsers <$>
    chatSessions (storage (onClose 1 Scenarios.allOpen Scenarios.chatting).1)
      !! "AB12CD34"
  = Some (Z.of_nat (size (({[1%positive; 2%positive]} : gset positive)
                          ∖ {[1%positive]}))) /\
  ChatSession.expiresAt <$>
    chatSessions (storage (onClose 1 Scenarios.allOpen Scenarios.chatting).1)
      !! "AB12CD34"
  = Some 1800010.
Proof.
  apply (BrokerFacts.onClose_others_remain 1 Scenarios.allOpen
           Scenarios.chatting (mkClientConnection 1 "AB12CD34" "A")
           {[1%positive; 2%positive]}
           (ChatSession.mk "s-1" "AB12CD34" 2 1800010 10)).
  - vm_compute; reflexivity.
  - vm_compute; reflexivity.
  - vm_compute. discriminate.
  - vm_compute; reflexivity.
Defined.

Lemma onJoinPrivateChat_count_witness :
  privateChatSessions
    (storage (@onJoinPrivateChat Samples.externals 3 "c0ffee00" "C" 40
                Scenarios.allOpen Scenarios.privateRoom).1) !! "C0FFEE00"
  = Some (PrivateChatSession.mk "s-1" "C0FFEE00" 3 7200000 0).
Proof.
  apply (@BrokerFacts.onJoinPrivateChat_count Samples.externals 3 "c0ffee00"
           "C" 40 Scenarios.allOpen Scenarios.privateRoom
           (PrivateChatSession.mk "s-1" "C0FFEE00" 2 7200000 0)).
  - vm_compute; reflexivity.
  - simpl. lia.
Defined.

Lemma onJoin_count_witness :
  chatSessions
    (storage (@onJoin Samples.externals 3 "ab12cd34" "C" "s-3" 50
                Scenarios.allOpen Scenarios.chatting).1) !! "AB12CD34"
  = Some (ChatSession.mk "s-1" "AB12CD34" 3 1800010 10).
Proof.
  apply (@BrokerFacts.onJoin_count Samples.externals 3 "ab12cd34" "C" "s-3"
           50 Scenarios.allOpen Scenarios.chatting
           (createShare Samples.helloInsert "id-1" 0 new).1
           (ChatSession.mk "s-1" "AB12CD34" 2 1800010 10)).
  - vm_compute; reflexivity.
  - simpl. lia.
  - vm_compute; reflexivity.
  - simpl. lia.
Defined.

Lemma onJoin_count_new_session_witness :
  chatSessions
    (storage (@onJoin Samples.externals 2 "da1da1da" "B" "s-2" 1860000
                Scenarios.allOpen Scenarios.dayRoom).1) !! "DA1DA1DA"
  = Some (ChatSession.mk "s-2" "DA1DA1DA" 1 (1860000 + 30 * 60 * 1000) 1860000).
Proof.
  apply (@BrokerFacts.onJoin_count_new_session Samples.externals 2 "da1da1da"
           "B" "s-2" 1860000 Scenarios.allOpen Scenarios.dayRoom
           (createShare Samples.dayInsert "id-4" 0 new).1).
  - vm_compute; reflexivity.
  - simpl. lia.
  - vm_compute; reflexivity.
Defined.

End BrokerWitnesses.

(** * The history of a room *)

Module HistoryFacts.
Import MemStorage.

Lemma getChatMessages_append (st : t) (a : Histories.Append) (code : string) :
  getChatMessages code (Histories.append st a)
  = getChatMessages code st ++ Histories.contentTo code [a].
Proof.
  destruct a as [m id now|m id now]; simpl.
  - unfold getChatMessages; simpl.
    destruct (decide (InsertChatMessage.shareCode m = code)) as [<-|Hne].
    + by rewrite lookup_insert_eq.
    + rewrite lookup_insert_ne by done. by rewrite app_nil_r.
  - by rewrite app_nil_r.
Qed.

Lemma getPrivateChatMessages_append (st : t) (a : Histories.Append)
    (code : string) :
  getPrivateChatMessages code (Histories.append st a)
  = getPrivateChatMessages code st ++ Histories.privateTo code [a].
Proof.
  destruct a as [m id now|m id now]; simpl.
  - by rewrite app_nil_r.
  - unfold getPrivateChatMessages; simpl.
    destruct (decide (InsertPrivateChatMessage.chatCode m = code)) as [<-|Hne].
    + by rewrite lookup_insert_eq.
    + rewrite lookup_insert_ne by done. by rewrite app_nil_r.
Qed.

Lemma contentTo_cons (code : string) (a : Histories.Append)
    (arrivals : list Histories.Append) :
  Histories.contentTo code (a :: arrivals)
  = Histories.contentTo code [a] ++ Histories.contentTo code arrivals.
Proof.
  destruct a as [m id now|m id now]; simpl; [|reflexivity].
  by destruct (decide (InsertChatMessage.shareCode m = code)).
Qed.

Lemma privateTo_cons (code : string) (a : Histories.Append)
    (arrivals : list Histories.Append) :
  Histories.privateTo code (a :: arrivals)
  = Histories.privateTo code [a] ++ Histories.privateTo code arrivals.
Proof.
  destruct a as [m id now|m id now]; simpl; [reflexivity|].
  by destruct (decide (InsertPrivateChatMessage.chatCode m = code)).
Qed.

Lemma histories_appendAll (arrivals : list Histories.Append) :
  forall (st : t) (code : string),
    getChatMessages code (Histories.appendAll arrivals st)
    = getChatMessages code st ++ Histories.contentTo code arrivals /\
    getPrivateChatMessages code (Histories.appendAll arrivals st)
    = getPrivateChatMessages code st ++ Histories.privateTo code arrivals.
Proof.
  induction arrivals as [|a arrivals IH]; intros st code.
  - simpl. by rewrite !app_nil_r.
  - change (Histories.appendAll (a :: arrivals) st)
      with (Histories.appendAll arrivals (Histories.append st a)).
    destruct (IH (Histories.append st a) code) as [IHc IHp].
    rewrite IHc, IHp, getChatMessages_append, getPrivateChatMessages_append.
    rewrite (contentTo_cons code a arrivals), (privateTo_cons code a arrivals).
    by rewrite !app_assoc.
Qed.

(** C9, as the code has it.  For every code and both kinds of room, the
    history after any run of appends is the history before followed by the
    messages of the run addressed to that code, in the order of the run;
    after the room was deleted, and in a fresh storage, it is exactly those
    messages; and a code without a log has the empty history.  The history
    reads the log alone, never the sessions. *)
Theorem history_arrival_order (st : t) (code : string)
    (arrivals : list Histories.Append) :
  getChatMessages code (Histories.appendAll arrivals st)
  = getChatMessages code st ++ Histories.contentTo code arrivals /\
  getPrivateChatMessages code (Histories.appendAll arrivals st)
  = getPrivateChatMessages code st ++ Histories.privateTo code arrivals /\
  getChatMessages code
    (Histories.appendAll arrivals (deleteChatSession code st).2)
  = Histories.contentTo code arrivals /\
  getPrivateChatMessages code
    (Histories.appendAll arrivals (deletePrivateChatSession code st).2)
  = Histories.privateTo code arrivals /\
  getChatMessages code (Histories.appendAll arrivals new)
  = Histories.contentTo code arrivals /\
  getPrivateChatMessages code (Histories.appendAll arrivals new)
  = Histories.privateTo code arrivals /\
  (chatMessages st !! code = None -> getChatMessages code st = []) /\
  (privateChatMessages st !! code = None ->
   getPrivateChatMessages code st = []) /\
  (forall sessions,
     getChatMessages code (set_chat sessions (chatMessages st) st)
     = getChatMessages code st) /\
  (forall sessions,
     getPrivateChatMessages code
       (set_private sessions (privateChatMessages st) st)
     = getPrivateChatMessages code st).
Proof.
  split; [apply histories_appendAll|].
  split; [apply histories_appendAll|].
  split.
  { rewrite (proj1 (histories_appendAll arrivals _ code)).
    unfold getChatMessages at 1; simpl. by rewrite lookup_delete_eq. }
  split.
  { rewrite (proj2 (histories_appendAll arrivals _ code)).
    unfold getPrivateChatMessages at 1; simpl. by rewrite lookup_delete_eq. }
  split; [by rewrite (proj1 (histories_appendAll arrivals _ code))|].
  split; [by rewrite (proj2 (histories_appendAll arrivals _ code))|].
  split; [intros Hout; unfold getChatMessages; by rewrite Hout|].
  split; [intros Hout; unfold getPrivateChatMessages; by rewrite Hout|].
  split; reflexivity.
Qed.

(** Two rooms of each kind written to in turn: each history holds its own
    messages, [M1] before [M2]. *)
Example history_interleaved :
  let st :=
    Histories.appendAll
      [Histories.Content (Samples.hi "AB12CD34" "A" "M1") "m-1" 10;
       Histories.Private (Histories.whisper "C0FFEE00" "X" "P1") "p-1" 11;
       Histories.Content (Samples.hi "0F0F0F0F" "C" "elsewhere") "m-2" 12;
       Histories.Private (Histories.whisper "C0FFEE00" "Y" "P2") "p-2" 13;
       Histories.Content (Samples.hi "AB12CD34" "B" "M2") "m-3" 14]
      Samples.roomStore in
  getChatMessages "AB12CD34" st
  = [ChatMessage.mk "m-1" "AB12CD34" "M1" "A" (Some 10);
     ChatMessage.mk "m-3" "AB12CD34" "M2" "B" (Some 14)] /\
  getPrivateChatMessages "C0FFEE00" st
  = [PrivateChatMessage.mk "p-1" "C0FFEE00" "P1" "X" 11;
     PrivateChatMessage.mk "p-2" "C0FFEE00" "P2" "Y" 13] /\
  getPrivateChatMessages "AB12CD34" st = [].
Proof. vm_compute. repeat split; reflexivity. Qed.

(** C9 fails as stated for an absent room.  [A] is in the room of the
    day-long entry; the sweep at minute 31 removes the session that ran
    out, and the message [A] sends at minute 32 is stored: the room is
    absent, for the table and for [getChatSession], and its history is not
    empty. *)
Lemma history_without_room_counterexample :
  chatSessions (Routes.storage Scenarios.lateMessage) !! "DA1DA1DA" = None /\
  (getChatSession "DA1DA1DA" 1920000
     (Routes.storage Scenarios.lateMessage)).1 = None /\
  getChatMessages "DA1DA1DA" (Routes.storage Scenarios.lateMessage)
  = [ChatMessage.mk "m-9" "DA1DA1DA" "late" "A" (Some 1920000)].
Proof. vm_compute. repeat split; reflexivity. Qed.

End HistoryFacts.
